(** * A shallow embedding of the VDA5050 client core

    This development models the routing and topic-dispatch core of the
    [vda5050] Python package:
    - [src/vda5050/core/topic_manager.py]   (module [Topics]),
    - [src/vda5050/core/mqtt_abstraction.py] (module [Transport]),
    - [src/vda5050/core/base_client.py] and [src/vda5050/clients/agv.py]
      (module [Client]),
    - the regular expressions [_route] builds from wildcard patterns
      (module [Wildcard]),
    - the rest of the client core, of the AGV role and the master-control
      role of [src/vda5050/clients/master_control.py] (module [Roles]).

    Python strings are modelled as Rocq [string]s; a character of such a
    string stands for the Unicode code point of the same number (Latin-1
    range), which is all the ASCII and Latin-1 text a topic can carry here. *)

From Stdlib Require Import String Ascii List Bool Arith NArith Lia.
Import ListNotations.
Open Scope string_scope.

(** ** Python exceptions and results *)

(** The exception classes raised or caught by the modelled code. *)
Inductive exc :=
| ValueError
| RuntimeError
| AttributeError
| VDA5050Error
| AsyncioTimeoutError   (** [asyncio.TimeoutError], caught by the dispatch loop *)
| ReError               (** [re.error], raised by [re.match] on a malformed regex *)
| OtherError (name : string).

(** A Python call either returns a value or raises. *)
Inductive result (A : Type) :=
| Ok (a : A)
| Raise (e : exc).
Arguments Ok {A} a.
Arguments Raise {A} e.

(** ** Python string primitives *)
Module PyStr.

Definition slash : ascii := "/"%char.
Definition dot : ascii := "."%char.

(** [s.split(sep)] for a one-character separator: never empty, keeps empty
    pieces ("a//b" gives ["a"; ""; "b"], "" gives [""]). *)
Fixpoint split (sep : ascii) (s : string) : list string :=
  match s with
  | EmptyString => [""]
  | String a s' =>
      let parts := split sep s' in
      if ascii_dec a sep then "" :: parts
      else match parts with
           | p :: ps => String a p :: ps
           | [] => [String a ""]
           end
  end.

(** [c in s] for a single character. *)
Fixpoint has_char (c : ascii) (s : string) : bool :=
  match s with
  | EmptyString => false
  | String a s' => if ascii_dec a c then true else has_char c s'
  end.

(** The characters for which Python's [str.isdigit] holds, restricted to
    code points 0..255: the ASCII digits and the superscripts one, two and
    three (U+00B9, U+00B2, U+00B3). *)
Definition is_digit_char (c : ascii) : bool :=
  let n := nat_of_ascii c in (
  ((48 <=? n) && (n <=? 57)) || (n =? 178) || (n =? 179) || (n =? 185))%nat.

Fixpoint all_chars (p : ascii -> bool) (s : string) : bool :=
  match s with
  | EmptyString => true
  | String a s' => p a && all_chars p s'
  end.

(** [s.isdigit()]: false on the empty string. *)
Definition isdigit (s : string) : bool :=
  match s with
  | EmptyString => false
  | _ => all_chars is_digit_char s
  end.

(** [s.startswith("v")]. *)
Definition startswith_v (s : string) : bool :=
  match s with
  | String a _ => if ascii_dec a "v"%char then true else false
  | EmptyString => false
  end.

(** [s[1:]]. *)
Definition drop1 (s : string) : string :=
  match s with
  | String _ s' => s'
  | EmptyString => EmptyString
  end.

End PyStr.

(** ** Topic manager ([topic_manager.py]) *)
Module Topics.
Import PyStr.

(** [TopicManager.MESSAGE_TYPES] *)
Definition MESSAGE_TYPES : list string :=
  ["order"; "state"; "connection"; "factsheet"; "instantActions"; "visualization"].

(** [message_type in self.MESSAGE_TYPES] *)
Definition is_message_type (mt : string) : bool :=
  existsb (String.eqb mt) MESSAGE_TYPES.

Record TopicManager := {
  interface : string;
  major_version : string;
  manufacturer : string;
  serial_number : string
}.

(** [TopicManager.__init__]: [self.major_version = version.split(".")[0]]. *)
Definition new_topic_manager (interface_name version man serial : string)
  : TopicManager :=
  {| interface := interface_name;
     major_version := match split dot version with
                      | p :: _ => p
                      | [] => ""   (* unreachable: split never returns [] *)
                      end;
     manufacturer := man;
     serial_number := serial |}.

(** [TopicManager._base_topic] *)
Definition base_topic (tm : TopicManager) : string :=
  interface tm ++ "/v" ++ major_version tm ++ "/" ++ manufacturer tm
  ++ "/" ++ serial_number tm.

(** [TopicManager.get_publish_topic] *)
Definition get_publish_topic (tm : TopicManager) (message_type : string)
  : result string :=
  if negb (is_message_type message_type) then Raise ValueError
  else Ok (base_topic tm ++ "/" ++ message_type).

(** [TopicManager.get_target_topic] *)
Definition get_target_topic (tm : TopicManager)
  (message_type target_manufacturer target_serial : string) : result string :=
  if negb (is_message_type message_type) then Raise ValueError
  else Ok (interface tm ++ "/v" ++ major_version tm ++ "/" ++ target_manufacturer
           ++ "/" ++ target_serial ++ "/" ++ message_type).

(** [TopicManager.get_subscription_topic] *)
Definition get_subscription_topic (tm : TopicManager) (message_type : string)
  (all_manufacturers all_serials : bool) : result string :=
  if negb (is_message_type message_type) then Raise ValueError
  else
    let man := if all_manufacturers then "+" else manufacturer tm in
    let serial := if all_serials then "+" else serial_number tm in
    Ok (interface tm ++ "/v" ++ major_version tm ++ "/" ++ man ++ "/" ++ serial
        ++ "/" ++ message_type).

(** The dictionary returned by [parse_topic]. *)
Record ParsedTopic := {
  p_interface : string;
  p_version : string;
  p_manufacturer : string;
  p_serialNumber : string;
  p_messageType : string
}.

(** [TopicManager.parse_topic] *)
Definition parse_topic (tm : TopicManager) (topic : string) : result ParsedTopic :=
  match split slash topic with
  | [iface; version_tag; man; serial; msg_type] =>
      if negb (String.eqb iface (interface tm)) then Raise ValueError
      else if negb (startswith_v version_tag) || negb (isdigit (drop1 version_tag))
      then Raise ValueError
      else
        let version := drop1 version_tag in
        if negb (is_message_type msg_type) then Raise ValueError
        else Ok {| p_interface := iface; p_version := version;
                   p_manufacturer := man; p_serialNumber := serial;
                   p_messageType := msg_type |}
  | _ => Raise ValueError
  end.

End Topics.

(** ** Transport session ([mqtt_abstraction.py]) *)
Module Transport.
Import PyStr.

(** [ConnectionState] *)
Inductive ConnectionState := DISCONNECTED | CONNECTING | CONNECTED | RECONNECTING.

Definition state_eqb (a b : ConnectionState) : bool :=
  match a, b with
  | DISCONNECTED, DISCONNECTED | CONNECTING, CONNECTING
  | CONNECTED, CONNECTED | RECONNECTING, RECONNECTING => true
  | _, _ => false
  end.

(** Handlers are identified by a number; what a handler does when awaited is
    given separately (see [run_handler] below). *)
Definition handler := nat.

(** A Python [dict] keyed by topic strings, in insertion order. *)
Definition dict := list (string * handler).

(** [d.get(k)] *)
Fixpoint dict_get (k : string) (d : dict) : option handler :=
  match d with
  | [] => None
  | (k', v) :: d' => if String.eqb k k' then Some v else dict_get k d'
  end.

(** [d[k] = v]: an existing key keeps its position, a new key goes last. *)
Fixpoint dict_set (k : string) (v : handler) (d : dict) : dict :=
  match d with
  | [] => [(k, v)]
  | (k', v') :: d' => if String.eqb k k' then (k, v) :: d' else (k', v') :: dict_set k v d'
  end.

(** The attributes of an [MQTTAbstraction] object that the core touches.
    [net_loop] records whether paho's network loop ([loop_start]) runs,
    [processor_tasks] counts the [_message_processor] tasks created, and
    [sent] lists the messages that paho's [client.publish(topic, payload,
    qos=qos)] accepted and queued for the broker (paho's [retain] argument
    is never passed, so it is always false). *)
Record Session := mkSession {
  state : ConnectionState;
  connection_event : bool;
  message_queue : list (string * string);
  handlers : dict;
  wildcard_handlers : dict;
  running : bool;
  net_loop : bool;
  processor_tasks : nat;
  sent : list (string * string * nat)
}.

(** [MQTTAbstraction.__init__] *)
Definition init_session : Session :=
  mkSession DISCONNECTED false [] [] [] false false 0 [].

Definition set_state (st : ConnectionState) (s : Session) : Session :=
  mkSession st (connection_event s) (message_queue s) (handlers s)
    (wildcard_handlers s) (running s) (net_loop s) (processor_tasks s) (sent s).
Definition set_event (b : bool) (s : Session) : Session :=
  mkSession (state s) b (message_queue s) (handlers s)
    (wildcard_handlers s) (running s) (net_loop s) (processor_tasks s) (sent s).
Definition set_queue (q : list (string * string)) (s : Session) : Session :=
  mkSession (state s) (connection_event s) q (handlers s)
    (wildcard_handlers s) (running s) (net_loop s) (processor_tasks s) (sent s).
Definition set_handlers (d : dict) (s : Session) : Session :=
  mkSession (state s) (connection_event s) (message_queue s) d
    (wildcard_handlers s) (running s) (net_loop s) (processor_tasks s) (sent s).
Definition set_wildcard_handlers (d : dict) (s : Session) : Session :=
  mkSession (state s) (connection_event s) (message_queue s) (handlers s)
    d (running s) (net_loop s) (processor_tasks s) (sent s).
Definition set_running (b : bool) (s : Session) : Session :=
  mkSession (state s) (connection_event s) (message_queue s) (handlers s)
    (wildcard_handlers s) b (net_loop s) (processor_tasks s) (sent s).
Definition set_net_loop (b : bool) (s : Session) : Session :=
  mkSession (state s) (connection_event s) (message_queue s) (handlers s)
    (wildcard_handlers s) (running s) b (processor_tasks s) (sent s).
Definition spawn_processor (s : Session) : Session :=
  mkSession (state s) (connection_event s) (message_queue s) (handlers s)
    (wildcard_handlers s) (running s) (net_loop s) (S (processor_tasks s)) (sent s).
Definition record_publish (m : string * string * nat) (s : Session) : Session :=
  mkSession (state s) (connection_event s) (message_queue s) (handlers s)
    (wildcard_handlers s) (running s) (net_loop s) (processor_tasks s) ((sent s ++ [m])%list).

(** A state-and-exception monad for the session's async methods. *)
Definition M (A : Type) := Session -> result A * Session.
Definition ret {A} (a : A) : M A := fun s => (Ok a, s).
Definition raise {A} (e : exc) : M A := fun s => (Raise e, s).
Definition bind {A B} (m : M A) (k : A -> M B) : M B :=
  fun s => match m s with
           | (Ok a, s') => k a s'
           | (Raise e, s') => (Raise e, s')
           end.
Definition get : M Session := fun s => (Ok s, s).
Definition modify (f : Session -> Session) : M unit := fun s => (Ok tt, f s).

Local Notation "x <- m ;; k" := (bind m (fun x => k)) (at level 61, m at next level, right associativity).
Local Notation "m ;; k" := (bind m (fun _ => k)) (at level 61, right associativity).

(** What paho and the broker do with one call: whether [client.connect]
    returns without raising; whether the [on_connect] callback reports
    success before the timeout; whether [info.wait_for_publish(10)] returns
    without raising (it returns once the message is acknowledged, and also,
    silently, when the 10 seconds run out; it raises when paho reports an
    error code for the message, such as a lost connection or a full queue);
    and the return code of [client.subscribe] itself ([MQTT_ERR_SUCCESS]
    once the SUBSCRIBE packet is handed to the socket, [MQTT_ERR_NO_CONN]
    when there is no socket). The broker's SUBACK answer arrives later and
    is never seen by [subscribe]. *)
Record Broker := {
  tcp_connect_ok : bool;
  handshake_ok : bool;
  wait_for_publish_ok : bool;
  subscribe_rc : nat
}.

Definition MQTT_ERR_SUCCESS : nat := 0.

(** [MQTTAbstraction._on_connect] with [rc == MQTT_ERR_SUCCESS]. *)
Definition on_connect_success : M unit :=
  modify (fun s => set_event true (set_state CONNECTED s)).

(** [MQTTAbstraction.connect]: every exception inside the [try] (a raising
    [client.connect], the timeout of [wait_for]) is caught and turned into
    [False]. *)
Definition connect (b : Broker) : M bool :=
  s <- get ;;
  if state_eqb (state s) CONNECTED then ret true
  else
    modify (set_state CONNECTING) ;;
    if negb (tcp_connect_ok b) then ret false
    else
      modify (set_net_loop true) ;;
      (if handshake_ok b then on_connect_success else ret tt) ;;
      s' <- get ;;
      if negb (connection_event s') then ret false
      else
        modify (set_running true) ;;
        modify spawn_processor ;;
        ret true.

(** [MQTTAbstraction.disconnect] *)
Definition disconnect : M unit :=
  modify (set_running false) ;;
  s <- get ;;
  (if state_eqb (state s) CONNECTED then modify (set_net_loop false) else ret tt) ;;
  modify (set_state DISCONNECTED).

(** ['+' in topic or '#' in topic] *)
Definition is_wildcard (topic : string) : bool :=
  has_char "+"%char topic || has_char "#"%char topic.

(** The length of [s.encode('utf-8')]: a code point below 128 takes one
    byte, one of 128..255 two. *)
Fixpoint utf8_length (s : string) : N :=
  match s with
  | EmptyString => 0%N
  | String a s' => ((if (nat_of_ascii a <? 128)%nat then 1 else 2) + utf8_length s')%N
  end.

(** The checks by which paho's [Client.publish] (paho-mqtt 2.x, with the
    default protocol MQTT 3.1.1 that [MQTTAbstraction.__init__] keeps)
    raises [ValueError] before queueing anything: an empty topic, a topic
    holding '+' or '#', a topic longer than 65535 bytes, a QoS outside
    0..2, a payload longer than 268435455 bytes. *)
Definition paho_publish_invalid (topic payload : string) (qos : nat) : bool :=
  String.eqb topic "" || is_wildcard topic || (65535 <? utf8_length topic)%N ||
  (2 <? qos)%nat || (268435455 <? utf8_length payload)%N.

(** [MQTTAbstraction.publish]: [self._client.publish(...)] sits before
    the [try], so its [ValueError] propagates; only [wait_for_publish]
    raising is turned into [False]. *)
Definition publish (b : Broker) (topic payload : string) (qos : nat) : M bool :=
  s <- get ;;
  if negb (state_eqb (state s) CONNECTED) then raise RuntimeError
  else if paho_publish_invalid topic payload qos then raise ValueError
  else
    modify (record_publish (topic, payload, qos)) ;;
    ret (wait_for_publish_ok b).

(** [MQTTAbstraction.subscribe] *)
Definition subscribe (b : Broker) (topic : string) (h : handler) : M unit :=
  if negb (Nat.eqb (subscribe_rc b) MQTT_ERR_SUCCESS) then raise RuntimeError
  else if is_wildcard topic
  then modify (fun s => set_wildcard_handlers (dict_set topic h (wildcard_handlers s)) s)
  else modify (fun s => set_handlers (dict_set topic h (handlers s)) s).

(** [MQTTAbstraction._on_disconnect]; the returned flag says whether a
    [_reconnect] task is created. *)
Definition on_disconnect (rc : nat) : M bool :=
  modify (set_state DISCONNECTED) ;;
  modify (set_event false) ;;
  ret (negb (Nat.eqb rc 0)).

(** A sequence of [subscribe] calls, each with its own broker return code;
    a call that raises leaves the session as it was and the next call
    proceeds. *)
Fixpoint run_subscribes (calls : list (string * handler * nat)) (s : Session) : Session :=
  match calls with
  | [] => s
  | (topic, h, rc) :: calls' =>
      let b := {| tcp_connect_ok := true; handshake_ok := true;
                  wait_for_publish_ok := true; subscribe_rc := rc |} in
      run_subscribes calls' (snd (subscribe b topic h s))
  end.

Section Dispatch.

(** [re.match(regex, topic)] for the regex that [_route] builds from a
    wildcard pattern: whether it finds a match, or [re.error] when the
    regex does not compile. *)
Variable matches : string -> string -> result bool.
(** What awaiting handler [h] on [(topic, payload)] does. *)
Variable run_handler : handler -> string -> string -> result unit.

(** The loop over [self._wildcard_handlers.items()] in [_route]. *)
Fixpoint route_wildcards (ws : dict) (topic payload : string)
  : list handler * result unit :=
  match ws with
  | [] => ([], Ok tt)
  | (pattern, h) :: ws' =>
      match matches pattern topic with
      | Raise e => ([], Raise e)
      | Ok true => ([h], run_handler h topic payload)
      | Ok false => route_wildcards ws' topic payload
      end
  end.

(** [MQTTAbstraction._route]: the handlers invoked, and how the call ends. *)
Definition route (s : Session) (topic payload : string) : list handler * result unit :=
  match dict_get topic (handlers s) with
  | Some h => ([h], run_handler h topic payload)
  | None => route_wildcards (wildcard_handlers s) topic payload
  end.

(** How the [_message_processor] task ends. *)
Inductive loop_end :=
| Stopped            (** [self._running] was found false *)
| Died (e : exc)     (** an exception escaped the [while] loop *)
| StillRunning.      (** out of fuel: the loop is still going *)

(** [MQTTAbstraction._message_processor], one fuel unit per iteration of
    the [while] loop (one poll of at most one second). Returns the handlers
    invoked, in order, how the task ends, and the session afterwards. *)
Fixpoint message_processor (fuel : nat) (s : Session)
  : list handler * loop_end * Session :=
  match fuel with
  | O => ([], StillRunning, s)
  | S fuel' =>
      if negb (running s) then ([], Stopped, s)
      else
        match message_queue s with
        | [] => message_processor fuel' s   (* wait_for times out: continue *)
        | (topic, payload) :: q =>
            let s1 := set_queue q s in
            let '(hs, r) := route s1 topic payload in
            match r with
            | Ok _ | Raise AsyncioTimeoutError =>
                let '(hs', e, s2) := message_processor fuel' s1 in ((hs ++ hs')%list, e, s2)
            | Raise e => (hs, Died e, s1)
            end
        end
  end.

End Dispatch.

(** [MQTTAbstraction._reconnect]. [attempt k] is the broker's behaviour on
    the [k]-th call of [connect], [during_sleep k] is what the rest of the
    program does to the session while the loop sleeps before that call
    (for instance an explicit [disconnect()]). Returns the delays slept, in
    order, whether the coroutine returned, and the session afterwards. *)
Fixpoint reconnect_loop (fuel k delay : nat) (attempt : nat -> Broker)
  (during_sleep : nat -> Session -> Session) (s : Session)
  : list nat * bool * Session :=
  match fuel with
  | O => ([], false, s)
  | S fuel' =>
      if state_eqb (state s) CONNECTED then ([], true, s)
      else
        let s1 := during_sleep k s in
        match connect (attempt k) s1 with
        | (Ok true, s2) => ([delay], true, s2)
        | (_, s2) =>
            let '(ws, done, s3) :=
              reconnect_loop fuel' (S k) (Nat.min (delay * 2) 60)%nat attempt during_sleep s2 in
            (delay :: ws, done, s3)
        end
  end.

(** [_reconnect()] as started by [_on_disconnect]: [delay = 1]. *)
Definition reconnect (fuel : nat) (attempt : nat -> Broker)
  (during_sleep : nat -> Session -> Session) (s : Session) :=
  reconnect_loop fuel 0%nat 1%nat attempt during_sleep s.

(** The order in which wildcard patterns were first registered by a
    sequence of [subscribe] calls: each pattern at the position of its first
    successful call. *)
Definition add_key (keys : list string) (k : string) : list string :=
  if existsb (String.eqb k) keys then keys else (keys ++ [k])%list.


(** How many handlers the two maps hold under the key [topic]. *)
Definition key_count (s : Session) (topic : string) : nat :=
  length (filter (String.eqb topic) (map fst (handlers s))) +
  length (filter (String.eqb topic) (map fst (wildcard_handlers s))).

(** The map [subscribe] files [topic] under, and what it holds there. *)
Definition handler_for (s : Session) (topic : string) : option handler :=
  if is_wildcard topic then dict_get topic (wildcard_handlers s)
  else dict_get topic (handlers s).

(** A broker call in which [connect] cannot complete: [client.connect]
    raises, or no successful [on_connect] arrives before the timeout. *)
Definition attempt_fails (b : Broker) : bool :=
  negb (tcp_connect_ok b && handshake_ok b).

(** The delays 1, 2, 4, ... capped at 60, for [n] attempts. *)
Definition backoff_schedule (n : nat) : list nat :=
  map (fun i => Nat.min (2 ^ i) 60)%nat (seq 0 n).

End Transport.

(** ** The regular expressions of [MQTTAbstraction._route] *)
Module Wildcard.
Import PyStr.

(** [_route] turns a wildcard pattern into
    ['^' + pattern.replace('+', '[^/]+').replace('#', '.*') + '$']
    (the first replacement brings in no '#', so each character of the
    pattern is replaced on its own) and hands it to [re.match]; every other
    character of the pattern is read as regex syntax. The model covers the
    patterns whose characters are literals or one of [+ # . ( )]: the
    remaining metacharacters [\ ^ $ * ? { } [ ] |] are outside it. The
    tokens of such a regex: *)
Inductive rtok :=
| RLit (c : ascii)   (** a literal character *)
| RSegment           (** [[^/]+] *)
| RAny               (** [.]: any character but a newline *)
| RAnyStar           (** [.*] *)
| ROpen              (** [(]: opens a group *)
| RClose.            (** [)]: closes a group *)

Definition newline : ascii := Ascii.ascii_of_nat 10.

(** The regex metacharacters the model does not cover. *)
Definition unmodelled_char (c : ascii) : bool := has_char c "\^$*?{}[]|".

(** The token a pattern character becomes; [None] outside the model. *)
Definition compile_char (c : ascii) : option rtok :=
  if ascii_dec c "+" then Some RSegment
  else if ascii_dec c "#" then Some RAnyStar
  else if ascii_dec c "." then Some RAny
  else if ascii_dec c "(" then Some ROpen
  else if ascii_dec c ")" then Some RClose
  else if unmodelled_char c then None
  else Some (RLit c).

(** The regex built from [pattern]; [None] when it is outside the model. *)
Fixpoint compile_pattern (pattern : string) : option (list rtok) :=
  match pattern with
  | EmptyString => Some []
  | String c p' =>
      match compile_char c, compile_pattern p' with
      | Some t, Some ts => Some (t :: ts)
      | _, _ => None
      end
  end.

(** Python's regex parser on the groups, read left to right with the
    number of groups open: [Some true] when every group is closed,
    [Some false] when a [)] closes no group or a [(] is never closed (both
    raise [re.error]), [None] when groups nest more than 100 deep, where
    CPython's recursive parser is outside the model. *)
Fixpoint groups_ok (depth : nat) (ts : list rtok) : option bool :=
  match ts with
  | [] => Some (Nat.eqb depth 0)
  | ROpen :: ts' => if (100 <=? depth)%nat then None else groups_ok (S depth) ts'
  | RClose :: ts' =>
      match depth with
      | O => Some false
      | S d => groups_ok d ts'
      end
  | _ :: ts' => groups_ok depth ts'
  end.

(** A match of the anchored regex against the whole topic, where the
    final [$] also matches before a newline that ends the string. The
    groups of the regex carry no quantifier (a '+' of the pattern becomes
    [[^/]+], a '#' becomes [.*]), so they do not change what matches. *)
Fixpoint rmatch (ts : list rtok) (t : string) : bool :=
  match ts with
  | [] =>
      match t with
      | EmptyString => true
      | String a EmptyString => Ascii.eqb a newline
      | _ => false
      end
  | RLit c :: ts' =>
      match t with
      | String a t' => Ascii.eqb a c && rmatch ts' t'
      | EmptyString => false
      end
  | RAny :: ts' =>
      match t with
      | String a t' => negb (Ascii.eqb a newline) && rmatch ts' t'
      | EmptyString => false
      end
  | RSegment :: ts' =>
      (fix seg (t : string) : bool :=
         match t with
         | EmptyString => false
         | String a t' => negb (Ascii.eqb a slash) && (rmatch ts' t' || seg t')
         end) t
  | RAnyStar :: ts' =>
      (fix star (t : string) : bool :=
         rmatch ts' t ||
         match t with
         | EmptyString => false
         | String a t' => negb (Ascii.eqb a newline) && star t'
         end) t
  | ROpen :: ts' | RClose :: ts' => rmatch ts' t
  end.

(** [re.match(regex, topic)] in [_route], for a pattern in the model:
    whether it matches, or the [re.error] the regex raises. [None] for a
    pattern outside the model. *)
Definition route_match (pattern topic : string) : option (result bool) :=
  match compile_pattern pattern with
  | None => None
  | Some ts =>
      match groups_ok 0 ts with
      | None => None
      | Some true => Some (Ok (rmatch ts topic))
      | Some false => Some (Raise ReError)
      end
  end.

(** A matcher of [_route] that is Python's [re.match] wherever the model
    defines it. *)
Definition re_faithful (matches : string -> string -> result bool) : Prop :=
  forall pattern topic r, route_match pattern topic = Some r -> matches pattern topic = r.

(** A character that [compile_pattern] turns into a literal. *)
Definition literal_char (c : ascii) : bool :=
  negb (has_char c "+#.()\^$*?{}[]|").

End Wildcard.

(** ** Client core and AGV role ([base_client.py], [clients/agv.py]) *)
Module Client.
Import Topics Transport.

(** A [register_handler] entry. *)
Record Registration := {
  r_message_type : string;
  r_handler : handler;
  r_all_manufacturers : bool;
  r_all_serials : bool
}.

(** The attributes of a [VDA5050BaseClient] (and of an [AGVClient]) that
    the core touches. [factsheet] is [self._factsheet], absent until
    [send_factsheet] has been called. *)
Record VClient := mkClient {
  manufacturer : string;
  serial_number : string;
  broker_url : string;
  topic_manager : TopicManager;
  validate_messages : bool;
  connected : bool;
  mqtt : Session;
  registered_handlers : list Registration;
  factsheet : option string
}.

Definition set_connected (b : bool) (c : VClient) : VClient :=
  mkClient (manufacturer c) (serial_number c) (broker_url c) (topic_manager c)
    (validate_messages c) b (mqtt c) (registered_handlers c) (factsheet c).
Definition set_mqtt (s : Session) (c : VClient) : VClient :=
  mkClient (manufacturer c) (serial_number c) (broker_url c) (topic_manager c)
    (validate_messages c) (connected c) s (registered_handlers c) (factsheet c).
Definition set_factsheet (fs : string) (c : VClient) : VClient :=
  mkClient (manufacturer c) (serial_number c) (broker_url c) (topic_manager c)
    (validate_messages c) (connected c) (mqtt c) (registered_handlers c) (Some fs).

(** [VDA5050BaseClient.__init__(manufacturer, serial_number, broker_url)]
    with the default [interface_name="uagv"], [version="2.1.0"] and
    [validate_messages=True]. *)
Definition new_base_client (man serial url : string) : VClient :=
  mkClient man serial url (new_topic_manager "uagv" "2.1.0" man serial)
    true false init_session [] None.

(** [AGVClient.__init__(broker_url, manufacturer, serial_number)] calls
    [super().__init__(broker_url, manufacturer, serial_number)], positionally,
    against the base signature [(manufacturer, serial_number, broker_url)]. *)
Definition new_agv_client (url man serial : string) : VClient :=
  new_base_client url man serial.

(** A state-and-exception monad over the client object. *)
Definition CM (A : Type) := VClient -> result A * VClient.
Definition cret {A} (a : A) : CM A := fun c => (Ok a, c).
Definition craise {A} (e : exc) : CM A := fun c => (Raise e, c).
Definition cbind {A B} (m : CM A) (k : A -> CM B) : CM B :=
  fun c => match m c with
           | (Ok a, c') => k a c'
           | (Raise e, c') => (Raise e, c')
           end.
Definition cget : CM VClient := fun c => (Ok c, c).
Definition cmodify (f : VClient -> VClient) : CM unit := fun c => (Ok tt, f c).
(** [try: m except <caught>: h]; exceptions [caught] rejects propagate. *)
Definition try_except {A} (m : CM A) (caught : exc -> bool) (h : exc -> CM A) : CM A :=
  fun c => match m c with
           | (Raise e, c') => if caught e then h e c' else (Raise e, c')
           | r => r
           end.
(** Awaiting a method of [self.mqtt]. *)
Definition on_mqtt {A} (m : Transport.M A) : CM A :=
  fun c => let '(r, s) := m (mqtt c) in (r, set_mqtt s c).
(** A plain Python result (such as a [TopicManager] call) inside a method. *)
Definition lift {A} (r : result A) : CM A := fun c => (r, c).

Local Notation "x <- m ;; k" := (cbind m (fun x => k)) (at level 61, m at next level, right associativity).
Local Notation "m ;; k" := (cbind m (fun _ => k)) (at level 61, right associativity).

Definition any_exception (e : exc) : bool := true.
Definition is_vda5050_error (e : exc) : bool :=
  match e with VDA5050Error => true | _ => false end.

Section WithBroker.
(** The broker's behaviour for the calls below. *)
Variable b : Broker.
(** The schema validator: [validate_message(message_type, payload)]
    returns normally exactly when this holds. *)
Variable valid : string -> string -> bool.

(** [VDA5050BaseClient._publish_message], with the message given as its
    [to_mqtt_payload()] string and no target. *)
Definition publish_message (message_type payload : string) : CM bool :=
  c <- cget ;;
  if negb (connected c) then craise VDA5050Error
  else
    try_except
      ((if validate_messages c && negb (valid message_type payload)
        then craise (OtherError "ValidationError") else cret tt) ;;
       topic <- lift (get_publish_topic (topic_manager c) message_type) ;;
       success <- on_mqtt (publish b topic payload 1) ;;
       if negb success then craise VDA5050Error else cret true)
      any_exception (fun _ => craise VDA5050Error).

(** [AGVClient.send_factsheet] *)
Definition send_factsheet (fs : string) : CM bool :=
  cmodify (set_factsheet fs) ;;
  try_except (publish_message "factsheet" fs) is_vda5050_error (fun _ => cret false).

(** The role-specific parts of a client ([_setup_subscriptions],
    [_on_vda5050_connect], [_on_vda5050_disconnect]). *)
Record Role := {
  setup_subscriptions : CM unit;
  on_vda5050_connect : CM unit;
  on_vda5050_disconnect : CM unit
}.

(** The handler ids of the AGV's bound methods. *)
Definition handle_order : handler := 10.
Definition handle_instant_action : handler := 11.

(** [AGVClient._setup_subscriptions] *)
Definition agv_setup_subscriptions : CM unit :=
  c <- cget ;;
  topic_order <- lift (get_subscription_topic (topic_manager c) "order" false false) ;;
  on_mqtt (subscribe b topic_order handle_order) ;;
  topic_inst <- lift (get_subscription_topic (topic_manager c) "instantActions" false false) ;;
  on_mqtt (subscribe b topic_inst handle_instant_action).

(** [AGVClient._on_vda5050_connect]: reading [self._factsheet] before it was
    ever set raises [AttributeError]. *)
Definition agv_on_connect : CM unit :=
  try_except
    (c <- cget ;;
     match factsheet c with
     | None => craise AttributeError
     | Some fs => send_factsheet fs ;; cret tt
     end)
    any_exception (fun _ => cret tt).

(** [AGVClient] in [src/vda5050/clients/agv.py] does not override
    [_on_vda5050_disconnect], so the base class's [pass] runs. *)
Definition agv_role : Role := {|
  setup_subscriptions := agv_setup_subscriptions;
  on_vda5050_connect := agv_on_connect;
  on_vda5050_disconnect := cret tt
|}.

(** [VDA5050BaseClient._setup_registered_handlers]; the wrapper created for
    a registration is identified with its handler. *)
Fixpoint setup_registered (regs : list Registration) : CM unit :=
  match regs with
  | [] => cret tt
  | r :: regs' =>
      c <- cget ;;
      topic <- lift (get_subscription_topic (topic_manager c) (r_message_type r)
                       (r_all_manufacturers r) (r_all_serials r)) ;;
      on_mqtt (subscribe b topic (r_handler r)) ;;
      setup_registered regs'
  end.

(** [VDA5050BaseClient.connect] *)
Definition connect (role : Role) : CM bool :=
  c <- cget ;;
  if connected c then cret true
  else
    try_except
      (success <- on_mqtt (Transport.connect b) ;;
       if negb success then cret false
       else
         setup_subscriptions role ;;
         c' <- cget ;;
         setup_registered (registered_handlers c') ;;
         on_vda5050_connect role ;;
         cmodify (set_connected true) ;;
         cret true)
      any_exception (fun _ => cret false).

(** [VDA5050BaseClient.disconnect] *)
Definition disconnect (role : Role) : CM unit :=
  c <- cget ;;
  if negb (connected c) then cret tt
  else
    try_except
      (on_vda5050_disconnect role ;;
       on_mqtt Transport.disconnect ;;
       cmodify (set_connected false))
      any_exception (fun _ => cret tt).

End WithBroker.

(** Predicates on client methods used in the proofs below. *)
Definition sent_of (c : VClient) := sent (mqtt c).

(** [m] publishes nothing, from any client. *)
Definition silent {A} (m : CM A) : Prop :=
  forall c, sent_of (snd (m c)) = sent_of c.
(** [m] publishes nothing from a client not yet marked connected. *)
Definition silent_down {A} (m : CM A) : Prop :=
  forall c, connected c = false -> sent_of (snd (m c)) = sent_of c.
(** ... and leaves it not marked connected. *)
Definition quiet {A} (m : CM A) : Prop :=
  forall c, connected c = false ->
  sent_of (snd (m c)) = sent_of c /\ connected (snd (m c)) = false.

End Client.

(** ** More of the client core, the AGV and the master-control roles
    ([base_client.py], [clients/agv.py], [clients/master_control.py]) *)
Module Roles.
Import Topics Transport Client.

Local Notation "x <- m ;; k" := (cbind m (fun x => k)) (at level 61, m at next level, right associativity).
Local Notation "m ;; k" := (cbind m (fun _ => k)) (at level 61, right associativity).

(** Python truthiness of a string. *)
Definition truthy (s : string) : bool := negb (String.eqb s "").

(** [VDA5050BaseClient.register_handler]: the registration goes last. *)
Definition register_handler (r : Registration) (c : VClient) : VClient :=
  mkClient (manufacturer c) (serial_number c) (broker_url c) (topic_manager c)
    (validate_messages c) (connected c) (mqtt c) ((registered_handlers c ++ [r])%list)
    (factsheet c).

(** The handler ids of the master's bound methods (as wrapped by
    [_setup_registered_handlers]). *)
Definition handle_state : handler := 20.
Definition handle_connection : handler := 21.
Definition handle_factsheet : handler := 22.

Definition wildcard_registration (mt : string) (h : handler) : Registration :=
  {| r_message_type := mt; r_handler := h;
     r_all_manufacturers := true; r_all_serials := true |}.

(** [MasterControlClient.__init__(broker_url, manufacturer, serial_number)]:
    the same positional call of the base constructor as the AGV's, then
    three wildcard registrations. *)
Definition new_master_client (url man serial : string) : VClient :=
  register_handler (wildcard_registration "factsheet" handle_factsheet)
    (register_handler (wildcard_registration "connection" handle_connection)
       (register_handler (wildcard_registration "state" handle_state)
          (new_base_client url man serial))).

(** [MasterControlClient]: [_setup_subscriptions] is [pass],
    [_on_vda5050_connect] only logs, [_on_vda5050_disconnect] is the base
    class's [pass]. *)
Definition master_role : Role := {|
  setup_subscriptions := cret tt;
  on_vda5050_connect := cret tt;
  on_vda5050_disconnect := cret tt
|}.

Section WithBroker.
Variable b : Broker.
Variable valid : string -> string -> bool.

(** [VDA5050BaseClient._publish_message] with its optional targets
    ([None] for a missing argument). *)
Definition publish_message_to (message_type payload : string)
  (target_manufacturer target_serial : option string) : CM bool :=
  c <- cget ;;
  if negb (connected c) then craise VDA5050Error
  else
    try_except
      ((if validate_messages c && negb (valid message_type payload)
        then craise (OtherError "ValidationError") else cret tt) ;;
       topic <- lift (match target_manufacturer, target_serial with
                      | Some m, Some s =>
                          if truthy m && truthy s
                          then get_target_topic (topic_manager c) message_type m s
                          else get_publish_topic (topic_manager c) message_type
                      | _, _ => get_publish_topic (topic_manager c) message_type
                      end) ;;
       success <- on_mqtt (publish b topic payload 1) ;;
       if negb success then craise VDA5050Error else cret true)
      any_exception (fun _ => craise VDA5050Error).

(** [AGVClient.send_state] *)
Definition send_state (st : string) : CM bool :=
  try_except (publish_message b valid "state" st) is_vda5050_error (fun _ => cret false).

(** [AGVClient.update_connection]: the check before the [try] raises. *)
Definition update_connection (connection_state : string) : CM bool :=
  c <- cget ;;
  if negb (connected c) then craise VDA5050Error
  else
    try_except
      (topic <- lift (get_publish_topic (topic_manager c) "connection") ;;
       success <- on_mqtt (publish b topic connection_state 1) ;;
       if negb success then craise VDA5050Error else cret true)
      any_exception (fun _ => cret false).

(** [MasterControlClient.send_order] *)
Definition send_order (target_manufacturer target_serial order : string) : CM bool :=
  try_except
    (publish_message_to "order" order (Some target_manufacturer) (Some target_serial))
    is_vda5050_error (fun _ => cret false).

(** [MasterControlClient.send_instant_action] *)
Definition send_instant_action (target_manufacturer target_serial action : string)
  : CM bool :=
  try_except
    (publish_message_to "instantActions" action (Some target_manufacturer)
       (Some target_serial))
    is_vda5050_error (fun _ => cret false).

End WithBroker.

(** A registered callback, by number. *)
Definition callback := nat.

(** [MasterControlClient._handle_state], [_handle_connection] and
    [_handle_factsheet]: [decode] is the payload's [from_mqtt_payload]
    (followed, for a connection, by [.connectionState.value]). Returns the
    callback calls [(cb, serial, message)] made, in order; each call sits in
    its own [try], so all of them are made. [parse_topic] raising is not
    caught: the [if not info] test after it never sees a failure. *)
Definition master_handle {Msg : Type} (decode : string -> result Msg)
  (cbs : list callback) (tm : TopicManager) (topic payload : string)
  : result (list (callback * string * Msg)) :=
  match parse_topic tm topic with
  | Raise e => Raise e
  | Ok info =>
      match decode payload with
      | Raise _ => Ok []
      | Ok m => Ok (map (fun cb => (cb, p_serialNumber info, m)) cbs)
      end
  end.

End Roles.

(** ** Facts about the topic manager *)
Module TopicFacts.
Import PyStr Topics.

Example parse_publish_example :
  let tm := new_topic_manager "uagv" "2.1.0" "RobotCorp" "robot001" in
  get_publish_topic tm "state" = Ok "uagv/v2/RobotCorp/robot001/state" /\
  parse_topic tm "uagv/v2/RobotCorp/robot001/state" =
    Ok {| p_interface := "uagv"; p_version := "2"; p_manufacturer := "RobotCorp";
          p_serialNumber := "robot001"; p_messageType := "state" |}.
Proof. split; reflexivity. Qed.

Lemma string_app_assoc (a b c : string) : (a ++ b) ++ c = a ++ (b ++ c).
Proof. induction a as [|x a IH]; simpl; [reflexivity | now rewrite IH]. Qed.

Lemma split_no_sep (sep : ascii) (s : string) :
  has_char sep s = false -> split sep s = [s].
Proof.
  induction s as [|a s IH]; simpl; [reflexivity|].
  destruct (ascii_dec a sep); [discriminate|].
  intros H; now rewrite (IH H).
Qed.

Lemma split_app_sep (sep : ascii) (s r : string) :
  has_char sep s = false -> split sep (s ++ String sep r) = s :: split sep r.
Proof.
  induction s as [|a s IH]; simpl.
  - intros _. destruct (ascii_dec sep sep) as [_|n]; [reflexivity|now elim n].
  - destruct (ascii_dec a sep); [discriminate|].
    intros H; now rewrite (IH H).
Qed.

Lemma digits_no_slash (s : string) :
  all_chars is_digit_char s = true -> has_char slash s = false.
Proof.
  induction s as [|a s IH]; simpl; [reflexivity|].
  intros H; apply andb_prop in H as [Ha Hs].
  destruct (ascii_dec a slash) as [->|_]; [discriminate|].
  now apply IH.
Qed.

Lemma isdigit_no_slash (s : string) : isdigit s = true -> has_char slash s = false.
Proof. destruct s as [|a s]; [reflexivity|]; apply digits_no_slash. Qed.

Lemma message_type_cases (mt : string) :
  is_message_type mt = true ->
  mt = "order" \/ mt = "state" \/ mt = "connection" \/ mt = "factsheet" \/
  mt = "instantActions" \/ mt = "visualization".
Proof.
  unfold is_message_type; intros H.
  apply existsb_exists in H as [x [Hin Heq]].
  apply String.eqb_eq in Heq; subst x.
  simpl in Hin; intuition congruence.
Qed.

Lemma message_type_no_slash (mt : string) :
  is_message_type mt = true -> split slash mt = [mt].
Proof.
  intros H; apply split_no_sep.
  destruct (message_type_cases mt H) as [->|[->|[->|[->|[->| ->]]]]]; reflexivity.
Qed.

(** The publish topic, written as nested appends. *)
Lemma publish_topic_shape (tm : TopicManager) (mt : string) :
  base_topic tm ++ "/" ++ mt =
  interface tm ++ String slash (String "v" (major_version tm)
    ++ String slash (manufacturer tm ++ String slash (serial_number tm
    ++ String slash mt))).
Proof. unfold base_topic; repeat rewrite string_app_assoc; reflexivity. Qed.

(** C1 as stated fails: nothing stops an identity part from containing the
    separator '/', and then the published topic has more than five segments. *)
Lemma publish_parse_roundtrip_slash_counterexample :
  let tm := new_topic_manager "uagv" "2.1.0" "Robot/Co" "A1" in
  get_publish_topic tm "state" = Ok "uagv/v2/Robot/Co/A1/state" /\
  parse_topic tm "uagv/v2/Robot/Co/A1/state" = Raise ValueError.
Proof. split; reflexivity. Qed.

(** C1 (amended): for an identity whose interface name, manufacturer and
    serial number contain no '/', and whose major version (the part of the
    version before the first '.') satisfies [str.isdigit], parsing the
    publish topic of any of the six message types succeeds and returns the
    identity's interface, major version, manufacturer and serial number and
    the message type. *)
Theorem publish_parse_roundtrip (iface version man serial mt : string)
  (Hiface : has_char slash iface = false)
  (Hman : has_char slash man = false)
  (Hserial : has_char slash serial = false)
  (Hmajor : isdigit (major_version (new_topic_manager iface version man serial)) = true)
  (Hmt : In mt MESSAGE_TYPES) :
  let tm := new_topic_manager iface version man serial in
  exists topic, get_publish_topic tm mt = Ok topic /\
    parse_topic tm topic =
      Ok {| p_interface := iface; p_version := major_version tm;
            p_manufacturer := man; p_serialNumber := serial; p_messageType := mt |}.
Proof.
  intros tm.
  assert (Hmt' : is_message_type mt = true).
  { unfold is_message_type; apply existsb_exists; exists mt.
    split; [exact Hmt|apply String.eqb_refl]. }
  exists (base_topic tm ++ "/" ++ mt). split.
  - unfold get_publish_topic; now rewrite Hmt'.
  - rewrite publish_topic_shape.
    unfold parse_topic.
    fold tm in Hmajor.
    pose proof (isdigit_no_slash _ Hmajor) as Hmaj.
    assert (Hv : has_char slash (String "v" (major_version tm)) = false)
      by exact Hmaj.
    rewrite (split_app_sep _ _ _ Hiface), (split_app_sep _ _ _ Hv),
      (split_app_sep _ _ _ Hman), (split_app_sep _ _ _ Hserial),
      (message_type_no_slash _ Hmt').
    simpl interface. rewrite String.eqb_refl.
    unfold startswith_v, drop1.
    destruct (ascii_dec "v" "v") as [_|n]; [|now elim n].
    rewrite Hmajor, Hmt'. reflexivity.
Qed.

Lemma publish_parse_roundtrip_witness :
  (has_char slash "uagv" = false /\ has_char slash "RobotCo" = false /\
   has_char slash "A1" = false /\
   isdigit (major_version (new_topic_manager "uagv" "2.1.0" "RobotCo" "A1")) = true /\
   In "connection" MESSAGE_TYPES) /\
  let tm := new_topic_manager "uagv" "2.1.0" "RobotCo" "A1" in
  exists topic, get_publish_topic tm "connection" = Ok topic /\
    parse_topic tm topic =
      Ok {| p_interface := "uagv"; p_version := major_version tm;
            p_manufacturer := "RobotCo"; p_serialNumber := "A1";
            p_messageType := "connection" |}.
Proof.
  split.
  - repeat split; simpl; auto 10.
  - apply publish_parse_roundtrip; try reflexivity. simpl; auto 10.
Defined.



End TopicFacts.

(** ** Facts about the transport session *)
Module TransportFacts.
Import PyStr Transport.
Local Open Scope nat_scope.

(** *** Handler maps *)

Lemma dict_set_keys (k : string) (v : handler) (d : dict) :
  map fst (dict_set k v d) = add_key (map fst d) k.
Proof.
  induction d as [|[k' v'] d IH]; simpl; [reflexivity|].
  unfold add_key; simpl.
  destruct (String.eqb_spec k k') as [->|Hne]; simpl; [reflexivity|].
  rewrite IH; unfold add_key.
  destruct (existsb (String.eqb k) (map fst d)); reflexivity.
Qed.

Lemma dict_get_set_same (k : string) (v : handler) (d : dict) :
  dict_get k (dict_set k v d) = Some v.
Proof.
  induction d as [|[k' v'] d IH]; simpl.
  - now rewrite String.eqb_refl.
  - destruct (String.eqb_spec k k') as [->|Hne]; simpl.
    + now rewrite String.eqb_refl.
    + destruct (String.eqb_spec k k'); [contradiction|exact IH].
Qed.

Lemma add_key_In (keys : list string) (k x : string) :
  In x (add_key keys k) <-> In x keys \/ x = k.
Proof.
  unfold add_key. destruct (existsb (String.eqb k) keys) eqn:E.
  - apply existsb_exists in E as [y [Hy Heq]]. apply String.eqb_eq in Heq; subst y.
    split; [tauto|]. intros [H| ->]; assumption.
  - rewrite in_app_iff; simpl. intuition.
Qed.

Lemma add_key_NoDup (keys : list string) (k : string) :
  NoDup keys -> NoDup (add_key keys k).
Proof.
  intros Hnd. unfold add_key. destruct (existsb (String.eqb k) keys) eqn:E; [exact Hnd|].
  apply NoDup_app; [exact Hnd|constructor; [intros []|constructor]|].
  intros x Hx [Heq|[]]; subst x.
  assert (existsb (String.eqb k) keys = true)
    by (apply existsb_exists; exists k; split; [exact Hx|apply String.eqb_refl]).
  congruence.
Qed.

Lemma add_key_Forall (P : string -> Prop) (keys : list string) (k : string) :
  Forall P keys -> P k -> Forall P (add_key keys k).
Proof.
  intros H Hk. apply Forall_forall; intros x Hx.
  apply add_key_In in Hx as [Hx| ->]; [|exact Hk].
  exact (proj1 (Forall_forall P keys) H x Hx).
Qed.

Lemma count_not_In (T : string) (l : list string) :
  ~ In T l -> length (filter (String.eqb T) l) = 0.
Proof.
  induction l as [|a l IH]; simpl; [reflexivity|].
  intros Hn. destruct (String.eqb_spec T a) as [->|_]; [tauto|].
  apply IH; tauto.
Qed.

Lemma count_NoDup_le (T : string) (l : list string) :
  NoDup l -> length (filter (String.eqb T) l) <= 1.
Proof.
  induction 1 as [|a l Ha Hnd IH]; simpl; [lia|].
  destruct (String.eqb_spec T a) as [->|_]; [|exact IH].
  simpl; rewrite count_not_In by exact Ha; lia.
Qed.

Lemma count_NoDup_In (T : string) (l : list string) :
  NoDup l -> In T l -> length (filter (String.eqb T) l) = 1.
Proof.
  induction 1 as [|a l Ha Hnd IH]; simpl; [intros []|].
  destruct (String.eqb_spec T a) as [->|Hne].
  - intros _; simpl; rewrite count_not_In by exact Ha; reflexivity.
  - intros [->|Hin]; [now elim Hne|exact (IH Hin)].
Qed.

(** The shape of the two maps: keys unique in each, exact keys without and
    wildcard keys with a wildcard character. *)
Definition maps_ok (s : Session) : Prop :=
  NoDup (map fst (handlers s)) /\ NoDup (map fst (wildcard_handlers s)) /\
  Forall (fun k => is_wildcard k = false) (map fst (handlers s)) /\
  Forall (fun k => is_wildcard k = true) (map fst (wildcard_handlers s)).

Lemma maps_ok_init : maps_ok init_session.
Proof. repeat split; constructor. Qed.

Lemma subscribe_maps_ok (b : Broker) (topic : string) (h : handler) (s : Session) :
  maps_ok s -> maps_ok (snd (subscribe b topic h s)).
Proof.
  intros (H1 & H2 & H3 & H4). unfold subscribe.
  destruct (negb (Nat.eqb (subscribe_rc b) MQTT_ERR_SUCCESS)); simpl;
    [repeat split; assumption|].
  destruct (is_wildcard topic) eqn:W; simpl; unfold maps_ok; simpl;
    rewrite dict_set_keys; repeat split; auto using add_key_NoDup, add_key_Forall.
Qed.

Lemma run_subscribes_maps_ok (calls : list (string * handler * nat)) (s : Session) :
  maps_ok s -> maps_ok (run_subscribes calls s).
Proof.
  revert s; induction calls as [|[[t h] rc] calls IH]; simpl; [auto|].
  intros s Hs; apply IH, subscribe_maps_ok, Hs.
Qed.

Lemma maps_ok_key_count (s : Session) (T : string) : maps_ok s -> key_count s T <= 1.
Proof.
  intros (H1 & H2 & H3 & H4). unfold key_count.
  destruct (is_wildcard T) eqn:W.
  - rewrite (count_not_In T (map fst (handlers s))).
    + pose proof (count_NoDup_le T _ H2); lia.
    + intros Hin. rewrite Forall_forall in H3. specialize (H3 T Hin). congruence.
  - rewrite (count_not_In T (map fst (wildcard_handlers s))).
    + pose proof (count_NoDup_le T _ H1); lia.
    + intros Hin. rewrite Forall_forall in H4. specialize (H4 T Hin). congruence.
Qed.


(** *** Routing *)




Lemma key_count_present (s : Session) (T : string) :
  maps_ok s ->
  In T (map fst (if is_wildcard T then wildcard_handlers s else handlers s)) ->
  key_count s T = 1.
Proof.
  intros (H1 & H2 & H3 & H4) Hin. unfold key_count.
  destruct (is_wildcard T) eqn:W.
  - rewrite (count_not_In T (map fst (handlers s))), (count_NoDup_In T _ H2 Hin); [reflexivity|].
    intros Hin'. rewrite Forall_forall in H3. specialize (H3 T Hin'). congruence.
  - rewrite (count_not_In T (map fst (wildcard_handlers s))), (count_NoDup_In T _ H1 Hin);
      [reflexivity|].
    intros Hin'. rewrite Forall_forall in H4. specialize (H4 T Hin'). congruence.
Qed.

(** C10: after any sequence of [subscribe] calls each topic string keys at
    most one handler across the exact and wildcard maps; two successful
    calls [subscribe(T, h1)] then [subscribe(T, h2)] leave exactly one
    handler under [T], namely [h2], in the map [T] is classified into. *)
Theorem subscribe_replaces_handler (calls : list (string * handler * nat))
  (T : string) (h1 h2 : handler) :
  let s := run_subscribes calls init_session in
  let s' := run_subscribes [(T, h1, 0); (T, h2, 0)] s in
  key_count s T <= 1 /\ handler_for s' T = Some h2 /\ key_count s' T = 1.
Proof.
  intros s s'.
  assert (Hs : maps_ok s) by (apply run_subscribes_maps_ok, maps_ok_init).
  assert (Hs' : maps_ok s') by (apply run_subscribes_maps_ok, Hs).
  split; [now apply maps_ok_key_count|].
  assert (Hw : handler_for s' T = Some h2 /\
               In T (map fst (if is_wildcard T then wildcard_handlers s' else handlers s'))).
  { unfold s', handler_for; simpl. unfold subscribe, modify, MQTT_ERR_SUCCESS; simpl.
    destruct (is_wildcard T); simpl; rewrite dict_set_keys;
      (split; [apply dict_get_set_same | apply add_key_In; now right]). }
  destruct Hw as [Hw Hin]. split; [exact Hw|].
  apply key_count_present; assumption.
Qed.

(** *** Dispatch loop *)

Lemma message_processor_handler_raises
  (matches : string -> string -> result bool)
  (run_handler : handler -> string -> string -> result unit)
  (n : nat) (s : Session) (topic payload : string) (q : list (string * string))
  (hs : list handler) (e : exc) :
  running s = true -> message_queue s = (topic, payload) :: q ->
  route matches run_handler (set_queue q s) topic payload = (hs, Raise e) ->
  e <> AsyncioTimeoutError ->
  message_processor matches run_handler (S n) s = (hs, Died e, set_queue q s).
Proof.
  intros Hr Hq Hroute He. simpl. rewrite Hr, Hq. simpl. rewrite Hroute.
  destruct e; try reflexivity. now elim He.
Qed.

(** C3 fails on the code: [_message_processor] catches only
    [asyncio.TimeoutError]; a handler awaited by [_route] that raises any
    other exception ends the task, and the messages still queued are never
    routed, however long the session stays up. *)
Theorem message_processor_stops_on_handler_error :
  let topic := "uagv/v2/RobotCo/A1/order" in
  let s := set_running true
             (set_queue [(topic, "first"); (topic, "second")]
                (set_handlers [(topic, 1)] init_session)) in
  let run := fun (h : handler) (t p : string) =>
               if String.eqb p "first" then Raise ValueError else Ok tt in
  message_processor (fun _ _ => Ok false) run 1000 s =
    ([1], Died ValueError, set_queue [(topic, "second")] s).
Proof.
  intros topic s run.
  apply (message_processor_handler_raises _ _ _ s topic "first" [(topic, "second")]);
    try reflexivity; discriminate.
Qed.

(** *** Publish and connect *)

(** C4 (amended): in every state but [CONNECTED], [publish] raises
    [RuntimeError] at once and leaves the session, and so the broker, as
    it was. *)
Theorem publish_requires_connected (b : Broker) (topic payload : string) (qos : nat)
  (s : Session) :
  state s <> CONNECTED ->
  publish b topic payload qos s = (Raise RuntimeError, s).
Proof.
  intros H. unfold publish, bind, get, raise.
  destruct (state s); try reflexivity. now elim H.
Qed.

Lemma publish_requires_connected_witness :
  let b := {| tcp_connect_ok := true; handshake_ok := true;
              wait_for_publish_ok := true; subscribe_rc := 0 |} in
  state init_session <> CONNECTED /\
  publish b "uagv/v2/RobotCo/A1/state" "{}" 1 init_session = (Raise RuntimeError, init_session).
Proof.
  intros b. split; [discriminate|].
  apply publish_requires_connected; discriminate.
Defined.

(** C4 as stated fails: a publish on a fresh, disconnected session raises
    instead of returning a failure value. *)
Lemma publish_disconnected_raises :
  let b := {| tcp_connect_ok := true; handshake_ok := true;
              wait_for_publish_ok := false; subscribe_rc := 0 |} in
  fst (publish b "uagv/v2/RobotCo/A1/state" "{}" 1 init_session) = Raise RuntimeError /\
  fst (publish b "uagv/v2/RobotCo/A1/state" "{}" 1 init_session) <> Ok false.
Proof. split; [reflexivity|discriminate]. Qed.

(** C5 fails on the code: when [client.connect] raises, or no successful
    [on_connect] arrives before the timeout, [connect] returns [False] but
    leaves the state at [CONNECTING] (its unit test expects
    [DISCONNECTED]); no dispatch loop is started. *)
Theorem connect_failure_leaves_connecting :
  let refused := {| tcp_connect_ok := false; handshake_ok := false;
                    wait_for_publish_ok := false; subscribe_rc := 0 |} in
  let silent := {| tcp_connect_ok := true; handshake_ok := false;
                   wait_for_publish_ok := false; subscribe_rc := 0 |} in
  (fst (connect refused init_session) = Ok false /\
   state (snd (connect refused init_session)) = CONNECTING /\
   running (snd (connect refused init_session)) = false /\
   processor_tasks (snd (connect refused init_session)) = 0) /\
  (fst (connect silent init_session) = Ok false /\
   state (snd (connect silent init_session)) = CONNECTING /\
   running (snd (connect silent init_session)) = false /\
   processor_tasks (snd (connect silent init_session)) = 0).
Proof. repeat split. Qed.

(** *** Reconnect loop *)

Lemma state_eqb_connected (x : ConnectionState) :
  x <> CONNECTED -> state_eqb x CONNECTED = false.
Proof. destruct x; try reflexivity. intros H; now elim H. Qed.

Lemma connect_attempt_fails (b : Broker) (s : Session) :
  attempt_fails b = true -> state s <> CONNECTED -> connection_event s = false ->
  fst (connect b s) = Ok false /\ state (snd (connect b s)) = CONNECTING /\
  connection_event (snd (connect b s)) = false.
Proof.
  unfold attempt_fails. intros Hf Hs He.
  unfold connect, bind, get, modify, ret.
  rewrite (state_eqb_connected _ Hs).
  destruct (tcp_connect_ok b), (handshake_ok b); try discriminate;
    cbv [set_state set_net_loop]; cbn; try rewrite He; repeat split.
Qed.

Lemma connect_attempt_succeeds (b : Broker) (s : Session) :
  attempt_fails b = false -> state s <> CONNECTED ->
  fst (connect b s) = Ok true /\ state (snd (connect b s)) = CONNECTED.
Proof.
  unfold attempt_fails. intros Hf Hs.
  unfold connect, bind, get, modify, ret, on_connect_success.
  rewrite (state_eqb_connected _ Hs).
  destruct (tcp_connect_ok b), (handshake_ok b); try discriminate; simpl; split; reflexivity.
Qed.

Lemma backoff_step (k : nat) :
  Nat.min (Nat.min (2 ^ k) 60 * 2) 60 = Nat.min (2 ^ S k) 60.
Proof. rewrite Nat.pow_succ_r'. lia. Qed.

Section Backoff.
Variable attempt : nat -> Broker.
Variable during_sleep : nat -> Session -> Session.
Hypothesis sleep_keeps_down : forall k s,
  state s <> CONNECTED -> connection_event s = false ->
  state (during_sleep k s) <> CONNECTED /\ connection_event (during_sleep k s) = false.

Lemma reconnect_loop_failing (n : nat) : forall k delay s,
  delay = Nat.min (2 ^ k) 60 ->
  state s <> CONNECTED -> connection_event s = false ->
  (forall j, k <= j < k + n -> attempt_fails (attempt j) = true) ->
  fst (fst (reconnect_loop n k delay attempt during_sleep s)) =
    map (fun i => Nat.min (2 ^ i) 60) (seq k n) /\
  snd (fst (reconnect_loop n k delay attempt during_sleep s)) = false /\
  state (snd (reconnect_loop n k delay attempt during_sleep s)) <> CONNECTED /\
  connection_event (snd (reconnect_loop n k delay attempt during_sleep s)) = false.
Proof.
  induction n as [|n IH]; intros k delay s Hd Hs He Hf; simpl; [tauto|].
  rewrite (state_eqb_connected _ Hs).
  destruct (sleep_keeps_down k s Hs He) as [Hs1 He1].
  destruct (connect_attempt_fails (attempt k) (during_sleep k s) ltac:(apply Hf; lia) Hs1 He1)
    as (Hr & Hs2 & He2).
  destruct (connect (attempt k) (during_sleep k s)) as [r s2]. simpl in Hr, Hs2, He2. subst r.
  assert (Hs2' : state s2 <> CONNECTED) by (rewrite Hs2; discriminate).
  destruct (IH (S k) (Nat.min (delay * 2) 60) s2) as (IH1 & IH2 & IH3 & IH4);
    [subst delay; apply backoff_step|exact Hs2'|exact He2|intros j Hj; apply Hf; lia|].
  destruct (reconnect_loop n (S k) (Nat.min (delay * 2) 60) attempt during_sleep s2)
    as [[ws done] s3]. simpl in *. subst. tauto.
Qed.

Lemma reconnect_loop_success (n : nat) : forall k delay s,
  delay = Nat.min (2 ^ k) 60 ->
  state s <> CONNECTED -> connection_event s = false ->
  (forall j, k <= j < k + n -> attempt_fails (attempt j) = true) ->
  attempt_fails (attempt (k + n)) = false ->
  fst (fst (reconnect_loop (S n) k delay attempt during_sleep s)) =
    map (fun i => Nat.min (2 ^ i) 60) (seq k (S n)) /\
  snd (fst (reconnect_loop (S n) k delay attempt during_sleep s)) = true /\
  state (snd (reconnect_loop (S n) k delay attempt during_sleep s)) = CONNECTED.
Proof.
  induction n as [|n IH]; intros k delay s Hd Hs He Hf Hok;
    change (reconnect_loop (S ?m) k delay attempt during_sleep s) with
      (if state_eqb (state s) CONNECTED then ([], true, s)
       else match connect (attempt k) (during_sleep k s) with
            | (Ok true, s2) => ([delay], true, s2)
            | (_, s2) =>
                let '(ws, done, s3) :=
                  reconnect_loop m (S k) (Nat.min (delay * 2) 60) attempt during_sleep s2 in
                (delay :: ws, done, s3)
            end);
    rewrite (state_eqb_connected _ Hs);
    destruct (sleep_keeps_down k s Hs He) as [Hs1 He1].
  - rewrite Nat.add_0_r in Hok.
    destruct (connect_attempt_succeeds (attempt k) (during_sleep k s) Hok Hs1) as [Hr Hs2].
    destruct (connect (attempt k) (during_sleep k s)) as [r s2]. simpl in Hr, Hs2.
    subst r delay. simpl. tauto.
  - destruct (connect_attempt_fails (attempt k) (during_sleep k s) ltac:(apply Hf; lia) Hs1 He1)
      as (Hr & Hs2 & He2).
    destruct (connect (attempt k) (during_sleep k s)) as [r s2]. simpl in Hr, Hs2, He2. subst r.
    assert (Hs2' : state s2 <> CONNECTED) by (rewrite Hs2; discriminate).
    destruct (IH (S k) (Nat.min (delay * 2) 60) s2) as (IH1 & IH2 & IH3);
      [subst delay; apply backoff_step|exact Hs2'|exact He2|intros j Hj; apply Hf; lia
      |rewrite Nat.add_succ_l, <- Nat.add_succ_r; exact Hok|].
    destruct (reconnect_loop (S n) (S k) (Nat.min (delay * 2) 60) attempt during_sleep s2)
      as [[ws done] s3]. simpl in *. subst. tauto.
Qed.

End Backoff.

(** C8 (amended): after an unexpected drop (state not [CONNECTED], the
    connection event cleared), as long as nothing the program does while the
    loop sleeps reconnects the session, which includes an explicit
    [disconnect()], the loop sleeps 1, 2, 4, ... capped at 60 before its
    successive attempts and keeps going for as many failed attempts as
    there are; the first successful attempt ends it with the session
    [CONNECTED]. *)
Theorem reconnect_backoff (n : nat) (attempt : nat -> Broker)
  (during_sleep : nat -> Session -> Session) (s : Session) :
  (forall k s', state s' <> CONNECTED -> connection_event s' = false ->
     state (during_sleep k s') <> CONNECTED /\ connection_event (during_sleep k s') = false) ->
  state s <> CONNECTED -> connection_event s = false ->
  (forall k, k < n -> attempt_fails (attempt k) = true) ->
  (fst (fst (reconnect n attempt during_sleep s)) = backoff_schedule n /\
   snd (fst (reconnect n attempt during_sleep s)) = false) /\
  (attempt_fails (attempt n) = false ->
   fst (fst (reconnect (S n) attempt during_sleep s)) = backoff_schedule (S n) /\
   snd (fst (reconnect (S n) attempt during_sleep s)) = true /\
   state (snd (reconnect (S n) attempt during_sleep s)) = CONNECTED).
Proof.
  intros Hsleep Hs He Hf. unfold reconnect, backoff_schedule. split.
  - destruct (reconnect_loop_failing attempt during_sleep Hsleep n 0 1 s eq_refl Hs He
                ltac:(intros j Hj; apply Hf; lia)) as (H1 & H2 & _).
    tauto.
  - intros Hok. exact (reconnect_loop_success attempt during_sleep Hsleep n 0 1 s eq_refl Hs He
                ltac:(intros j Hj; apply Hf; lia) Hok).
Qed.

Lemma disconnect_keeps_down (s : Session) :
  state (snd (disconnect s)) <> CONNECTED /\
  connection_event (snd (disconnect s)) = connection_event s.
Proof.
  unfold disconnect, bind, get, modify, ret.
  destruct (state_eqb (state (set_running false s)) CONNECTED); cbn;
    split; try discriminate; reflexivity.
Qed.

Lemma reconnect_backoff_witness :
  let down := {| tcp_connect_ok := false; handshake_ok := false;
                 wait_for_publish_ok := false; subscribe_rc := 0 |} in
  let up := {| tcp_connect_ok := true; handshake_ok := true;
               wait_for_publish_ok := true; subscribe_rc := 0 |} in
  let attempt := fun k => if k <? 3 then down else up in
  let app := fun k s => if k =? 1 then snd (disconnect s) else s in
  let s0 := set_running true init_session in
  backoff_schedule 3 = [1; 2; 4] /\
  (state s0 <> CONNECTED /\ connection_event s0 = false /\
   (forall k, k < 3 -> attempt_fails (attempt k) = true) /\
   attempt_fails (attempt 3) = false) /\
  (fst (fst (reconnect 3 attempt app s0)) = backoff_schedule 3 /\
   snd (fst (reconnect 3 attempt app s0)) = false) /\
  (attempt_fails (attempt 3) = false ->
   fst (fst (reconnect 4 attempt app s0)) = backoff_schedule 4 /\
   snd (fst (reconnect 4 attempt app s0)) = true /\
   state (snd (reconnect 4 attempt app s0)) = CONNECTED).
Proof.
  intros down up attempt app s0.
  assert (Hf : forall k, k < 3 -> attempt_fails (attempt k) = true).
  { intros k Hk. unfold attempt. apply Nat.ltb_lt in Hk. now rewrite Hk. }
  split; [reflexivity|]. split; [repeat split; [discriminate|exact Hf]|].
  apply (reconnect_backoff 3 attempt app s0); [| discriminate | reflexivity | exact Hf].
  intros k s' Hs' He'. unfold app. destruct (k =? 1).
  - destruct (disconnect_keeps_down s') as [H1 H2]. rewrite H2. tauto.
  - tauto.
Defined.

(** C8 as stated fails: an explicit [disconnect()] while the loop sleeps
    does not stop it. The loop keeps retrying, and on the next successful
    attempt it reconnects the session and starts a dispatch loop again. *)
Lemma reconnect_survives_explicit_disconnect :
  let down := {| tcp_connect_ok := false; handshake_ok := false;
                 wait_for_publish_ok := false; subscribe_rc := 0 |} in
  let up := {| tcp_connect_ok := true; handshake_ok := true;
               wait_for_publish_ok := true; subscribe_rc := 0 |} in
  let app := fun k s => if k =? 0 then snd (disconnect s) else s in
  let s0 := set_running true init_session in
  fst (fst (reconnect 5 (fun _ => down) app s0)) = [1; 2; 4; 8; 16] /\
  snd (fst (reconnect 5 (fun _ => down) app s0)) = false /\
  fst (reconnect 5 (fun _ => up) app s0) = ([1], true) /\
  state (snd (reconnect 5 (fun _ => up) app s0)) = CONNECTED /\
  running (snd (reconnect 5 (fun _ => up) app s0)) = true /\
  processor_tasks (snd (reconnect 5 (fun _ => up) app s0)) = 1.
Proof. repeat split. Qed.

End TransportFacts.

(** ** Facts about the client core and the AGV role *)
Module ClientFacts.
Import Topics Transport Client.
Local Open Scope nat_scope.

Lemma silent_down_of_silent {A} (m : CM A) : silent m -> silent_down m.
Proof. intros H c _; apply H. Qed.

Lemma silent_down_of_quiet {A} (m : CM A) : quiet m -> silent_down m.
Proof. intros H c Hc; apply (H c Hc). Qed.

Lemma silent_bind {A B} (m : CM A) (k : A -> CM B) :
  silent m -> (forall a, silent (k a)) -> silent (cbind m k).
Proof.
  intros Hm Hk c. unfold cbind. specialize (Hm c).
  destruct (m c) as [[a|e] c']; simpl in *; [rewrite Hk|]; exact Hm.
Qed.

Lemma quiet_bind {A B} (m : CM A) (k : A -> CM B) :
  quiet m -> (forall a, quiet (k a)) -> quiet (cbind m k).
Proof.
  intros Hm Hk c Hc. unfold cbind. specialize (Hm c Hc).
  destruct (m c) as [[a|e] c']; simpl in *; [|exact Hm].
  destruct Hm as [H1 H2]. destruct (Hk a c' H2) as [H3 H4]. split; congruence.
Qed.

Lemma silent_down_bind {A B} (m : CM A) (k : A -> CM B) :
  quiet m -> (forall a, silent_down (k a)) -> silent_down (cbind m k).
Proof.
  intros Hm Hk c Hc. unfold cbind. specialize (Hm c Hc).
  destruct (m c) as [[a|e] c']; simpl in *; [|apply Hm].
  destruct Hm as [H1 H2]. rewrite (Hk a c' H2). exact H1.
Qed.

Lemma quiet_try {A} (m : CM A) caught (h : exc -> CM A) :
  quiet m -> (forall e, quiet (h e)) -> quiet (try_except m caught h).
Proof.
  intros Hm Hh c Hc. unfold try_except. specialize (Hm c Hc).
  destruct (m c) as [[a|e] c']; simpl in *; [exact Hm|].
  destruct (caught e); [|exact Hm].
  destruct Hm as [H1 H2]. destruct (Hh e c' H2) as [H3 H4]. split; congruence.
Qed.

Lemma silent_down_try {A} (m : CM A) caught (h : exc -> CM A) :
  silent_down m -> (forall e, silent (h e)) -> silent_down (try_except m caught h).
Proof.
  intros Hm Hh c Hc. unfold try_except. specialize (Hm c Hc).
  destruct (m c) as [[a|e] c']; simpl in *; [exact Hm|].
  destruct (caught e); [|exact Hm]. rewrite Hh. exact Hm.
Qed.

Lemma silent_try {A} (m : CM A) caught (h : exc -> CM A) :
  silent m -> (forall e, silent (h e)) -> silent (try_except m caught h).
Proof.
  intros Hm Hh c. unfold try_except. specialize (Hm c).
  destruct (m c) as [[a|e] c']; simpl in *; [exact Hm|].
  destruct (caught e); [|exact Hm]. rewrite Hh. exact Hm.
Qed.

Lemma quiet_ret {A} (a : A) : quiet (cret a).
Proof. intros c Hc; split; [reflexivity|exact Hc]. Qed.
Lemma silent_ret {A} (a : A) : silent (cret a).
Proof. intros c; reflexivity. Qed.
Lemma quiet_raise {A} (e : exc) : quiet (@craise A e).
Proof. intros c Hc; split; [reflexivity|exact Hc]. Qed.
Lemma quiet_get : quiet cget.
Proof. intros c Hc; split; [reflexivity|exact Hc]. Qed.
Lemma quiet_lift {A} (r : result A) : quiet (lift r).
Proof. intros c Hc; split; [reflexivity|exact Hc]. Qed.

Lemma quiet_on_mqtt {A} (m : Transport.M A) :
  (forall s, sent (snd (m s)) = sent s) -> quiet (on_mqtt m).
Proof.
  intros Hm c Hc. unfold on_mqtt, sent_of. specialize (Hm (mqtt c)).
  destruct (m (mqtt c)) as [r s]; simpl in *. split; [exact Hm|exact Hc].
Qed.

Lemma silent_on_mqtt {A} (m : Transport.M A) :
  (forall s, sent (snd (m s)) = sent s) -> silent (on_mqtt m).
Proof.
  intros Hm c. unfold on_mqtt, sent_of. specialize (Hm (mqtt c)).
  destruct (m (mqtt c)) as [r s]; simpl in *. exact Hm.
Qed.

Lemma subscribe_sent (b : Broker) (topic : string) (h : handler) (s : Session) :
  sent (snd (subscribe b topic h s)) = sent s.
Proof.
  unfold subscribe, raise, modify.
  destruct (negb _); [reflexivity|]. destruct (is_wildcard topic); reflexivity.
Qed.

Lemma connect_sent (b : Broker) (s : Session) : sent (snd (Transport.connect b s)) = sent s.
Proof.
  unfold Transport.connect, Transport.bind, get, modify, ret, on_connect_success.
  destruct (state_eqb (state s) CONNECTED); [reflexivity|].
  destruct (tcp_connect_ok b), (handshake_ok b); cbn; try reflexivity;
    destruct (connection_event s); reflexivity.
Qed.

Lemma disconnect_sent (s : Session) : sent (snd (Transport.disconnect s)) = sent s.
Proof.
  unfold Transport.disconnect, Transport.bind, get, modify, ret.
  destruct (state_eqb (state (set_running false s)) CONNECTED); reflexivity.
Qed.

Lemma disconnect_returns (s : Session) : fst (Transport.disconnect s) = Ok tt.
Proof.
  unfold Transport.disconnect, Transport.bind, get, modify, ret.
  destruct (state_eqb (state (set_running false s)) CONNECTED); reflexivity.
Qed.

Lemma publish_message_quiet (b : Broker) (valid : string -> string -> bool)
  (message_type payload : string) : quiet (publish_message b valid message_type payload).
Proof.
  intros c Hc. unfold publish_message, cbind, cget. rewrite Hc. split; [reflexivity|exact Hc].
Qed.

Lemma send_factsheet_quiet (b : Broker) (valid : string -> string -> bool) (fs : string) :
  quiet (send_factsheet b valid fs).
Proof.
  apply quiet_bind; [intros c Hc; split; [reflexivity|exact Hc]|intros _].
  apply quiet_try; [apply publish_message_quiet|intros; apply quiet_ret].
Qed.

Lemma agv_on_connect_quiet (b : Broker) (valid : string -> string -> bool) :
  quiet (agv_on_connect b valid).
Proof.
  apply quiet_try; [|intros; apply quiet_ret].
  apply quiet_bind; [apply quiet_get|intros c].
  destruct (factsheet c) as [fs|]; [|apply quiet_raise].
  apply quiet_bind; [apply send_factsheet_quiet|intros; apply quiet_ret].
Qed.

Lemma agv_setup_subscriptions_quiet (b : Broker) : quiet (agv_setup_subscriptions b).
Proof.
  unfold agv_setup_subscriptions.
  repeat (apply quiet_bind; [first [apply quiet_get | apply quiet_lift
           | apply quiet_on_mqtt; intros; apply subscribe_sent]|intros]).
  apply quiet_on_mqtt; intros; apply subscribe_sent.
Qed.

Lemma setup_registered_quiet (b : Broker) (regs : list Registration) :
  quiet (setup_registered b regs).
Proof.
  induction regs as [|r regs IH]; simpl; [apply quiet_ret|].
  repeat (apply quiet_bind; [first [apply quiet_get | apply quiet_lift
           | apply quiet_on_mqtt; intros; apply subscribe_sent]|intros]).
  exact IH.
Qed.

Lemma agv_connect_silent (b : Broker) (valid : string -> string -> bool) :
  silent_down (Client.connect b (agv_role b valid)).
Proof.
  unfold Client.connect.
  apply silent_down_bind; [apply quiet_get|intros c].
  destruct (connected c); [apply silent_down_of_silent, silent_ret|].
  apply silent_down_try; [|intros; apply silent_ret].
  apply silent_down_bind; [apply quiet_on_mqtt; intros; apply connect_sent|intros ok].
  destruct (negb ok); [apply silent_down_of_silent, silent_ret|].
  apply silent_down_bind; [apply agv_setup_subscriptions_quiet|intros _].
  apply silent_down_bind; [apply quiet_get|intros c'].
  apply silent_down_bind; [apply setup_registered_quiet|intros _].
  apply silent_down_bind; [apply agv_on_connect_quiet|intros _].
  apply silent_down_of_silent, silent_bind; [intros c''; reflexivity|intros; apply silent_ret].
Qed.

Lemma agv_disconnect_silent (b : Broker) (valid : string -> string -> bool) :
  silent (Client.disconnect (agv_role b valid)).
Proof.
  unfold Client.disconnect.
  apply silent_bind; [intros c; reflexivity|intros c].
  destruct (negb (connected c)); [apply silent_ret|].
  apply silent_try; [|intros; apply silent_ret].
  apply silent_bind; [apply silent_ret|intros _].
  apply silent_bind; [apply silent_on_mqtt, disconnect_sent|intros _].
  intros c'; reflexivity.
Qed.

(** C6 fails on the code: the AGV client's connect/disconnect hooks never
    publish a connection message. [_on_vda5050_connect] only re-sends a
    factsheet it already holds, and that publish is refused because the
    client is not yet marked connected at that point. [_on_vda5050_disconnect]
    is not overridden. So, for every identity, broker behaviour and
    validator, [connect()] followed by [disconnect()] publishes nothing at all.
    In the scenario AGVClient("localhost", "RobotCo", "A1"), [connect()]
    succeeds, still with no publish. *)
Theorem agv_connect_disconnect_no_announce :
  (forall (url man serial : string) (fs : option string) (b : Broker)
          (valid : string -> string -> bool),
     let c0 := match fs with
               | Some f => set_factsheet f (new_agv_client url man serial)
               | None => new_agv_client url man serial
               end in
     let c1 := snd (Client.connect b (agv_role b valid) c0) in
     let c2 := snd (Client.disconnect (agv_role b valid) c1) in
     sent_of c1 = [] /\ sent_of c2 = []) /\
  (let b := {| tcp_connect_ok := true; handshake_ok := true;
               wait_for_publish_ok := true; subscribe_rc := 0 |} in
   let valid := fun (_ _ : string) => true in
   let c0 := set_factsheet "{}" (new_agv_client "localhost" "RobotCo" "A1") in
   let r1 := Client.connect b (agv_role b valid) c0 in
   let r2 := Client.disconnect (agv_role b valid) (snd r1) in
   fst r1 = Ok true /\ connected (snd r1) = true /\ sent_of (snd r1) = [] /\
   connected (snd r2) = false /\ state (mqtt (snd r2)) = DISCONNECTED /\
   sent_of (snd r2) = []).
Proof.
  split.
  - intros url man serial fs b valid c0 c1 c2.
    assert (H0 : sent_of c0 = [] /\ connected c0 = false)
      by (unfold c0; destruct fs; split; reflexivity).
    destruct H0 as [H0 Hc0].
    assert (H1 : sent_of c1 = []) by (unfold c1; rewrite agv_connect_silent; assumption).
    split; [exact H1|]. unfold c2. rewrite agv_disconnect_silent. exact H1.
  - vm_compute. repeat split.
Qed.

(** C9 as stated fails: a raising pre-disconnect hook makes [disconnect()]
    skip the transport teardown; the client stays marked connected and the
    session stays [CONNECTED]. *)
Lemma disconnect_hook_failure_counterexample :
  let role := {| setup_subscriptions := cret tt; on_vda5050_connect := cret tt;
                 on_vda5050_disconnect := craise (OtherError "Exception") |} in
  let c := set_connected true
             (set_mqtt (set_state CONNECTED init_session)
                (new_base_client "RobotCo" "A1" "localhost")) in
  fst (Client.disconnect role c) = Ok tt /\
  connected (snd (Client.disconnect role c)) = true /\
  state (mqtt (snd (Client.disconnect role c))) = CONNECTED.
Proof. repeat split. Qed.

(** C9 (amended): on a connected client, if the pre-disconnect hook raises,
    [disconnect()] catches the exception and stops there. The transport
    session is not torn down and the client is left exactly as the hook left
    it, still marked connected unless the hook changed that. Only when the
    hook returns normally is the session disconnected and the client marked
    not connected. *)
Theorem disconnect_hook_failure_skips_teardown (role : Role) (c : VClient) :
  connected c = true ->
  (forall e c', on_vda5050_disconnect role c = (Raise e, c') ->
     Client.disconnect role c = (Ok tt, c')) /\
  (forall c', on_vda5050_disconnect role c = (Ok tt, c') ->
     Client.disconnect role c =
       (Ok tt, set_connected false (set_mqtt (snd (Transport.disconnect (mqtt c'))) c'))).
Proof.
  intros Hc. unfold Client.disconnect, cbind, cget, try_except. rewrite Hc. simpl.
  split.
  - intros e c' H. now rewrite H.
  - intros c' H. rewrite H. unfold on_mqtt, cmodify.
    pose proof (disconnect_returns (mqtt c')) as Hr.
    destruct (Transport.disconnect (mqtt c')) as [r s]. simpl in Hr. subst r. reflexivity.
Qed.

Lemma disconnect_hook_failure_skips_teardown_witness :
  let raising := {| setup_subscriptions := cret tt; on_vda5050_connect := cret tt;
                    on_vda5050_disconnect := craise (OtherError "Exception") |} in
  let c := set_connected true
             (set_mqtt (set_state CONNECTED init_session)
                (new_base_client "RobotCo" "A1" "localhost")) in
  connected c = true /\
  on_vda5050_disconnect raising c = (Raise (OtherError "Exception"), c) /\
  Client.disconnect raising c = (Ok tt, c).
Proof.
  intros raising c. split; [reflexivity|split; [reflexivity|]].
  exact (proj1 (disconnect_hook_failure_skips_teardown raising c eq_refl)
           (OtherError "Exception") c eq_refl).
Defined.

End ClientFacts.

(** ** Further facts about topics and wildcard patterns *)
Module TopicExtras.
Import PyStr Topics Wildcard TopicFacts.

Lemma all_chars_app (p : ascii -> bool) (a b : string) :
  all_chars p (a ++ b) = all_chars p a && all_chars p b.
Proof.
  induction a as [|x a IH]; simpl; [reflexivity|].
  rewrite IH. apply andb_assoc.
Qed.

Lemma digit_literal (c : ascii) : is_digit_char c = true -> literal_char c = true.
Proof.
  revert c; intros [[] [] [] [] [] [] [] []]; vm_compute;
    intros H; first [reflexivity | discriminate H].
Qed.

Lemma digits_literal (s : string) :
  all_chars is_digit_char s = true -> all_chars literal_char s = true.
Proof.
  induction s as [|a s IH]; simpl; [reflexivity|].
  intros H; apply andb_prop in H as [Ha Hs].
  now rewrite (digit_literal _ Ha), (IH Hs).
Qed.

Lemma isdigit_literal (s : string) : isdigit s = true -> all_chars literal_char s = true.
Proof. destruct s as [|a s]; [discriminate|]; apply digits_literal. Qed.

Lemma message_type_literal (mt : string) :
  is_message_type mt = true -> all_chars literal_char mt = true.
Proof.
  intros H.
  destruct (message_type_cases mt H) as [->|[->|[->|[->|[->| ->]]]]]; reflexivity.
Qed.

Lemma compile_literal_char (c : ascii) :
  literal_char c = true -> compile_char c = Some (RLit c).
Proof.
  revert c; intros [[] [] [] [] [] [] [] []]; vm_compute;
    intros H; first [reflexivity | discriminate H].
Qed.

(** A literal character of the pattern consumes the same character of the
    topic. *)
Lemma route_match_literal_cons (c : ascii) (p t : string) :
  literal_char c = true -> route_match (String c p) (String c t) = route_match p t.
Proof.
  intros Hc. unfold route_match. cbn [compile_pattern].
  rewrite (compile_literal_char c Hc).
  destruct (compile_pattern p) as [ts|]; [|reflexivity].
  cbn [groups_ok]. destruct (groups_ok 0 ts) as [[|]|]; try reflexivity.
  cbn [rmatch]. now rewrite Ascii.eqb_refl.
Qed.

(** A literal prefix of the pattern consumes the same prefix of the topic. *)
Lemma route_match_literal_prefix (l r t : string) :
  all_chars literal_char l = true -> route_match (l ++ r) (l ++ t) = route_match r t.
Proof.
  induction l as [|c l IH]; [reflexivity|].
  intros H; simpl in H; apply andb_prop in H as [Hc Hl].
  change (route_match (String c (l ++ r)) (String c (l ++ t)) = route_match r t).
  rewrite (route_match_literal_cons c _ _ Hc). exact (IH Hl).
Qed.

Lemma append_empty_r (s : string) : s ++ "" = s.
Proof. induction s as [|a s IH]; simpl; [reflexivity|now rewrite IH]. Qed.

Lemma route_match_literal_self (l : string) :
  all_chars literal_char l = true -> route_match l l = Some (Ok true).
Proof.
  intros H. pose proof (route_match_literal_prefix l "" "" H) as E.
  rewrite !append_empty_r in E. rewrite E. reflexivity.
Qed.

(** [[^/]+/] consumes a non-empty segment free of '/' and its separator. *)
Lemma rmatch_segment (seg t : string) (ts : list rtok) :
  seg <> "" -> has_char slash seg = false ->
  rmatch (RSegment :: RLit slash :: ts) (seg ++ String slash t) = rmatch ts t.
Proof.
  induction seg as [|a seg IH]; [intros H; now elim H|intros _ Hs].
  simpl in Hs. destruct (ascii_dec a slash) as [_|Ha]; [discriminate|].
  change (negb (Ascii.eqb a slash) &&
          (rmatch (RLit slash :: ts) (seg ++ String slash t) ||
           rmatch (RSegment :: RLit slash :: ts) (seg ++ String slash t))
          = rmatch ts t).
  assert (Hab : Ascii.eqb a slash = false) by (apply Ascii.eqb_neq; exact Ha).
  rewrite Hab. simpl negb. rewrite andb_true_l.
  destruct seg as [|a' seg'].
  - simpl. destruct (rmatch ts t); reflexivity.
  - rewrite (IH ltac:(discriminate) Hs).
    simpl in Hs. destruct (ascii_dec a' slash) as [_|Ha']; [discriminate|].
    simpl. apply Ascii.eqb_neq in Ha'. now rewrite Ha'.
Qed.

Lemma route_match_segment (seg p t : string) :
  seg <> "" -> has_char slash seg = false ->
  route_match ("+/" ++ p) (seg ++ String slash t) = route_match p t.
Proof.
  intros Hn Hs. unfold route_match. cbn [compile_pattern append].
  change (compile_char "+") with (Some RSegment).
  change (compile_char "/") with (Some (RLit slash)).
  destruct (compile_pattern p) as [ts|]; [|reflexivity].
  cbn [groups_ok]. destruct (groups_ok 0 ts) as [[|]|]; try reflexivity.
  now rewrite rmatch_segment.
Qed.

(** [[^/]+] matches no empty segment. *)
Lemma route_match_segment_empty (p t : string) (ts : list rtok) :
  compile_pattern p = Some ts -> groups_ok 0 ts = Some true ->
  route_match ("+/" ++ p) (String slash t) = Some (Ok false).
Proof.
  intros Hc Hg. unfold route_match. cbn [compile_pattern append].
  change (compile_char "+") with (Some RSegment).
  change (compile_char "/") with (Some (RLit slash)).
  rewrite Hc. cbn [groups_ok]. rewrite Hg. reflexivity.
Qed.

(** The publish topic of an identity, as nested appends around the
    manufacturer segment. *)
Lemma publish_topic_split (tm : TopicManager) (mt : string) :
  base_topic tm ++ "/" ++ mt =
  (interface tm ++ "/v" ++ major_version tm ++ "/") ++
    manufacturer tm ++ String slash (serial_number tm ++ String slash mt).
Proof. unfold base_topic; repeat rewrite string_app_assoc; reflexivity. Qed.

Lemma target_topic_shape (tm : TopicManager) (mt m s : string) :
  interface tm ++ "/v" ++ major_version tm ++ "/" ++ m ++ "/" ++ s ++ "/" ++ mt =
  interface tm ++ String slash (String "v" (major_version tm)
    ++ String slash (m ++ String slash (s ++ String slash mt))).
Proof. repeat rewrite string_app_assoc; reflexivity. Qed.

Lemma target_topic_split (tm : TopicManager) (mt m s : string) :
  interface tm ++ "/v" ++ major_version tm ++ "/" ++ m ++ "/" ++ s ++ "/" ++ mt =
  (interface tm ++ "/v" ++ major_version tm ++ "/") ++
    m ++ String slash (s ++ String slash mt).
Proof. repeat rewrite string_app_assoc; reflexivity. Qed.

(** Parsing a topic laid out as interface, "v" and major version,
    manufacturer, serial number and message type. *)
Lemma parse_topic_shape (tm receiver : TopicManager) (mt m s : string)
  (Hi : interface receiver = interface tm)
  (Hiface : has_char slash (interface tm) = false)
  (Hm : has_char slash m = false) (Hs : has_char slash s = false)
  (Hmajor : isdigit (major_version tm) = true) (Hmt : is_message_type mt = true) :
  parse_topic receiver
    (interface tm ++ "/v" ++ major_version tm ++ "/" ++ m ++ "/" ++ s ++ "/" ++ mt) =
  Ok {| p_interface := interface tm; p_version := major_version tm;
        p_manufacturer := m; p_serialNumber := s; p_messageType := mt |}.
Proof.
  rewrite target_topic_shape. unfold parse_topic.
  pose proof (isdigit_no_slash _ Hmajor) as Hmaj.
  assert (Hv : has_char slash (String "v" (major_version tm)) = false) by exact Hmaj.
  rewrite (split_app_sep _ _ _ Hiface), (split_app_sep _ _ _ Hv), (split_app_sep _ _ _ Hm),
    (split_app_sep _ _ _ Hs), (message_type_no_slash _ Hmt).
  rewrite Hi, String.eqb_refl.
  unfold startswith_v, drop1.
  destruct (ascii_dec "v" "v") as [_|n]; [|now elim n].
  rewrite Hmajor, Hmt. reflexivity.
Qed.

(** X1: a target topic built by one party parses back, at any receiver with
    the same interface name, to the target manufacturer and serial number
    and the message type, provided these segments contain no '/' and the
    sender's major version is a [str.isdigit] string; the receiver's own
    major version, manufacturer and serial number play no part. *)
Theorem target_topic_parse_roundtrip (tm receiver : TopicManager) (mt m s : string)
  (Hi : interface receiver = interface tm)
  (Hiface : has_char slash (interface tm) = false)
  (Hm : has_char slash m = false) (Hs : has_char slash s = false)
  (Hmajor : isdigit (major_version tm) = true) (Hmt : is_message_type mt = true) :
  exists topic, get_target_topic tm mt m s = Ok topic /\
    parse_topic receiver topic =
      Ok {| p_interface := interface tm; p_version := major_version tm;
            p_manufacturer := m; p_serialNumber := s; p_messageType := mt |}.
Proof.
  unfold get_target_topic. rewrite Hmt. eexists; split; [reflexivity|].
  now apply parse_topic_shape.
Qed.

Lemma target_topic_parse_roundtrip_witness :
  let tm := new_topic_manager "uagv" "2.1.0" "Fleet" "MC1" in
  let receiver := new_topic_manager "uagv" "3.0.0" "RobotCo" "A1" in
  (interface receiver = interface tm /\ has_char slash (interface tm) = false /\
   has_char slash "RobotCo" = false /\ has_char slash "A7" = false /\
   isdigit (major_version tm) = true /\ is_message_type "order" = true) /\
  exists topic, get_target_topic tm "order" "RobotCo" "A7" = Ok topic /\
    parse_topic receiver topic =
      Ok {| p_interface := interface tm; p_version := major_version tm;
            p_manufacturer := "RobotCo"; p_serialNumber := "A7";
            p_messageType := "order" |}.
Proof.
  intros tm receiver. split; [repeat split; reflexivity|].
  apply target_topic_parse_roundtrip; reflexivity.
Defined.

(** X2: the topic a sender addresses to a client with [get_target_topic]
    is exactly the one that client subscribes to for that message type
    ([get_subscription_topic] without wildcards), whenever both use the same
    interface name and major version; for a message type outside the six,
    both raise [ValueError]. *)
Theorem target_topic_is_subscription (sender receiver : TopicManager) (mt : string)
  (Hi : interface sender = interface receiver)
  (Hv : major_version sender = major_version receiver) :
  get_target_topic sender mt (manufacturer receiver) (serial_number receiver) =
  get_subscription_topic receiver mt false false.
Proof.
  unfold get_target_topic, get_subscription_topic. rewrite Hi, Hv. reflexivity.
Qed.

Lemma target_topic_is_subscription_witness :
  let sender := new_topic_manager "uagv" "2.1.0" "Fleet" "MC1" in
  let receiver := new_topic_manager "uagv" "2.0.4" "RobotCo" "A1" in
  (interface sender = interface receiver /\ major_version sender = major_version receiver) /\
  get_target_topic sender "instantActions" (manufacturer receiver) (serial_number receiver) =
  get_subscription_topic receiver "instantActions" false false /\
  get_subscription_topic receiver "instantActions" false false =
    Ok "uagv/v2/RobotCo/A1/instantActions".
Proof.
  intros sender receiver. split; [split; reflexivity|split; [|reflexivity]].
  apply target_topic_is_subscription; reflexivity.
Defined.

(** X3: the fully wildcarded subscription pattern of a manager (both
    [all_manufacturers] and [all_serials]) is a pattern on which the regex
    [_route] builds compiles, and that regex matches the publish topic of
    every client with the same interface name, major version and message
    type whose manufacturer and serial number contain no '/', exactly when
    both are non-empty. It requires the interface name to be made of
    literal characters (no wildcard, no '.', no regex metacharacter) and
    the major version to be a [str.isdigit] string. *)
Theorem wildcard_subscription_matches (tm other : TopicManager) (mt : string)
  (Hiface : all_chars literal_char (interface tm) = true)
  (Hmajor : isdigit (major_version tm) = true)
  (Hmt : is_message_type mt = true)
  (Hi : interface other = interface tm) (Hv : major_version other = major_version tm)
  (Hm : has_char slash (manufacturer other) = false)
  (Hs : has_char slash (serial_number other) = false) :
  exists pattern topic,
    get_subscription_topic tm mt true true = Ok pattern /\
    get_publish_topic other mt = Ok topic /\
    route_match pattern topic =
      Some (Ok (negb (String.eqb (manufacturer other) "") &&
                negb (String.eqb (serial_number other) ""))).
Proof.
  unfold get_subscription_topic, get_publish_topic. rewrite Hmt.
  do 2 eexists; split; [reflexivity|split; [reflexivity|]].
  rewrite publish_topic_split, Hi, Hv.
  set (l := interface tm ++ "/v" ++ major_version tm ++ "/").
  assert (Hl : all_chars literal_char l = true).
  { unfold l. rewrite !all_chars_app, Hiface, (isdigit_literal _ Hmajor). reflexivity. }
  assert (Ep : interface tm ++ "/v" ++ major_version tm ++ "/" ++ "+" ++ "/" ++ "+" ++ "/" ++ mt
               = l ++ "+/" ++ ("+/" ++ mt))
    by (unfold l; repeat rewrite string_app_assoc; reflexivity).
  rewrite Ep, (route_match_literal_prefix _ _ _ Hl).
  assert (Hc : exists ts, compile_pattern ("+/" ++ mt) = Some ts /\ groups_ok 0 ts = Some true
                 /\ exists ts', compile_pattern mt = Some ts' /\ groups_ok 0 ts' = Some true).
  { destruct (message_type_cases mt Hmt) as [->|[->|[->|[->|[->| ->]]]]];
      eexists; (split; [reflexivity|split; [reflexivity|]]); eexists; split; reflexivity. }
  destruct Hc as (ts & Hc & Hg & ts' & Hc' & Hg').
  destruct (manufacturer other) as [|a m'] eqn:Em.
  - cbn [append]. exact (route_match_segment_empty _ _ _ Hc Hg).
  - rewrite route_match_segment; [|discriminate|exact Hm].
    destruct (serial_number other) as [|a' s'] eqn:Es.
    + cbn [append]. exact (route_match_segment_empty _ _ _ Hc' Hg').
    + rewrite route_match_segment; [|discriminate|exact Hs].
      rewrite (route_match_literal_self _ (message_type_literal _ Hmt)). reflexivity.
Qed.

Lemma wildcard_subscription_matches_witness :
  let tm := new_topic_manager "uagv" "2.1.0" "Fleet" "MC1" in
  let other := new_topic_manager "uagv" "2.1.0" "RobotCo" "A1" in
  (all_chars literal_char (interface tm) = true /\ isdigit (major_version tm) = true /\
   is_message_type "state" = true /\ interface other = interface tm /\
   major_version other = major_version tm /\
   has_char slash (manufacturer other) = false /\
   has_char slash (serial_number other) = false) /\
  exists pattern topic,
    get_subscription_topic tm "state" true true = Ok pattern /\
    get_publish_topic other "state" = Ok topic /\
    route_match pattern topic = Some (Ok true).
Proof.
  intros tm other. split; [repeat split; reflexivity|].
  exact (wildcard_subscription_matches tm other "state" eq_refl eq_refl eq_refl eq_refl
           eq_refl eq_refl eq_refl).
Defined.

End TopicExtras.

(** ** Further facts about the transport session *)
Module TransportExtras.
Import Transport.
Local Open Scope nat_scope.

Lemma route_set_queue (matches : string -> string -> result bool)
  (run_handler : handler -> string -> string -> result unit)
  (q : list (string * string)) (s : Session) (topic payload : string) :
  route matches run_handler (set_queue q s) topic payload =
  route matches run_handler s topic payload.
Proof. reflexivity. Qed.

Lemma processor_idle (matches : string -> string -> result bool)
  (run_handler : handler -> string -> string -> result unit) (k : nat) (s : Session) :
  running s = true -> message_queue s = [] ->
  message_processor matches run_handler k s = ([], StillRunning, s).
Proof.
  intros Hr Hq. induction k as [|k IH]; [reflexivity|].
  simpl. rewrite Hr, Hq. exact IH.
Qed.

(** X4: a message whose topic has no exact handler, and on which the regex
    of every wildcard pattern compiles and finds no match, is dropped by
    [_route]: no handler is awaited and the call returns normally. *)
Theorem route_unmatched_dropped (matches : string -> string -> result bool)
  (run_handler : handler -> string -> string -> result unit)
  (s : Session) (topic payload : string)
  (Hexact : dict_get topic (handlers s) = None)
  (Hwild : Forall (fun ph => matches (fst ph) topic = Ok false) (wildcard_handlers s)) :
  route matches run_handler s topic payload = ([], Ok tt).
Proof.
  unfold route. rewrite Hexact.
  induction Hwild as [|[p h] ws Hp Hws IH]; simpl in *; [reflexivity|].
  rewrite Hp. exact IH.
Qed.

Lemma route_unmatched_dropped_witness :
  let m := fun p t => match Wildcard.route_match p t with Some r => r | None => Ok false end in
  let s := snd (subscribe {| tcp_connect_ok := true; handshake_ok := true;
                             wait_for_publish_ok := true; subscribe_rc := 0 |}
                  "uagv/v2/+/+/state" 7 init_session) in
  (dict_get "uagv/v2/RobotCo/A1/order" (handlers s) = None /\
   Forall (fun ph => m (fst ph) "uagv/v2/RobotCo/A1/order" = Ok false)
     (wildcard_handlers s)) /\
  route m (fun _ _ _ => Ok tt) s "uagv/v2/RobotCo/A1/order" "{}" = ([], Ok tt).
Proof.
  intros m s.
  assert (H : Forall (fun ph => m (fst ph) "uagv/v2/RobotCo/A1/order" = Ok false)
                (wildcard_handlers s))
    by (apply Forall_cons; [vm_compute; reflexivity|apply Forall_nil]).
  split; [split; [reflexivity|exact H]|].
  exact (route_unmatched_dropped m _ s _ "{}" eq_refl H).
Defined.

(** X5: while [self._running] holds, the dispatch loop takes the queued
    messages in arrival order: if every one of them is routed without an
    exception, [length q + k] iterations await exactly the handlers [_route]
    picks for each message, in queue order, leave the queue empty and the
    loop still polling. *)
Theorem message_processor_fifo (matches : string -> string -> result bool)
  (run_handler : handler -> string -> string -> result unit)
  (q : list (string * string)) (k : nat) : forall (s : Session),
  running s = true -> message_queue s = q ->
  (forall topic payload, In (topic, payload) q ->
     snd (route matches run_handler s topic payload) = Ok tt) ->
  message_processor matches run_handler (length q + k) s =
    (flat_map (fun m => fst (route matches run_handler s (fst m) (snd m))) q,
     StillRunning, set_queue [] s).
Proof.
  induction q as [|[t p] q IH]; intros s Hrun Hq Hok.
  - simpl. rewrite (processor_idle _ _ _ _ Hrun Hq).
    destruct s; simpl in *; subst; reflexivity.
  - simpl length. simpl plus. cbn [message_processor]. rewrite Hrun, Hq.
    simpl negb. cbv iota.
    rewrite route_set_queue.
    pose proof (Hok t p (or_introl eq_refl)) as Ht.
    destruct (route matches run_handler s t p) as [hs r] eqn:Er.
    simpl in Ht; subst r.
    rewrite (IH (set_queue q s)); [|exact Hrun|reflexivity|].
    + simpl. rewrite Er. reflexivity.
    + intros t' p' Hin. rewrite route_set_queue. exact (Hok t' p' (or_intror Hin)).
Qed.

Lemma message_processor_fifo_witness :
  let m := fun p t => match Wildcard.route_match p t with Some r => r | None => Ok false end in
  let b := {| tcp_connect_ok := true; handshake_ok := true;
              wait_for_publish_ok := true; subscribe_rc := 0 |} in
  let s0 := snd (subscribe b "uagv/v2/+/+/state" 7
                   (snd (subscribe b "uagv/v2/RobotCo/A1/order" 5 init_session))) in
  let q := [("uagv/v2/RobotCo/A1/order", "o1"); ("uagv/v2/X/B2/state", "s1");
            ("uagv/v2/RobotCo/A1/order", "o2")] in
  let s := set_running true (set_queue q s0) in
  (running s = true /\ message_queue s = q /\
   (forall topic payload, In (topic, payload) q ->
      snd (route m (fun _ _ _ => Ok tt) s topic payload) = Ok tt)) /\
  message_processor m (fun _ _ _ => Ok tt) (length q + 2) s =
    ([5; 7; 5], StillRunning, set_queue [] s).
Proof.
  intros m b s0 q s.
  assert (H : forall topic payload, In (topic, payload) q ->
      snd (route m (fun _ _ _ => Ok tt) s topic payload) = Ok tt).
  { intros topic payload Hin. simpl in Hin.
    destruct Hin as [E|[E|[E|[]]]]; injection E as <- <-; vm_compute; reflexivity. }
  split; [split; [reflexivity|split; [reflexivity|exact H]]|].
  rewrite (message_processor_fifo _ _ q 2 s eq_refl eq_refl H). vm_compute. reflexivity.
Defined.

(** X6: [disconnect()] stops paho's network loop only when the state is
    [CONNECTED]. After a [connect()] whose broker accepted the TCP
    connection but never completed the handshake (the loop was started and
    the state is left [CONNECTING]), [disconnect()] reports the session
    [DISCONNECTED] but the network loop keeps running. From [CONNECTED] it
    does stop the loop. Either way a second [disconnect()] changes nothing. *)
Theorem disconnect_stops_loop_only_when_connected (b : Broker) (s : Session)
  (Hs : state s <> CONNECTED) (He : connection_event s = false)
  (Htcp : tcp_connect_ok b = true) (Hhs : handshake_ok b = false) :
  let s1 := snd (connect b s) in
  let s2 := snd (disconnect s1) in
  fst (connect b s) = Ok false /\ net_loop s1 = true /\
  state s2 = DISCONNECTED /\ net_loop s2 = true /\ running s2 = false /\
  disconnect s2 = (Ok tt, s2) /\
  (forall s', state s' = CONNECTED ->
     net_loop (snd (disconnect s')) = false /\ state (snd (disconnect s')) = DISCONNECTED).
Proof.
  assert (E : connect b s = (Ok false, set_net_loop true (set_state CONNECTING s))).
  { unfold connect, bind, get, modify, ret.
    rewrite (TransportFacts.state_eqb_connected _ Hs), Htcp, Hhs. cbn.
    now rewrite He. }
  cbv zeta. rewrite E.
  refine (conj _ (conj _ (conj _ (conj _ (conj _ (conj _ _)))))); try reflexivity.
  intros s3 Hc. unfold disconnect, bind, get, modify, ret. cbn. rewrite Hc.
  split; reflexivity.
Qed.

Lemma disconnect_stops_loop_only_when_connected_witness :
  let b := {| tcp_connect_ok := true; handshake_ok := false;
              wait_for_publish_ok := true; subscribe_rc := 0 |} in
  (state init_session <> CONNECTED /\ connection_event init_session = false /\
   tcp_connect_ok b = true /\ handshake_ok b = false) /\
  let s1 := snd (connect b init_session) in
  let s2 := snd (disconnect s1) in
  fst (connect b init_session) = Ok false /\ net_loop s1 = true /\
  state s2 = DISCONNECTED /\ net_loop s2 = true /\ running s2 = false /\
  disconnect s2 = (Ok tt, s2) /\
  (forall s', state s' = CONNECTED ->
     net_loop (snd (disconnect s')) = false /\ state (snd (disconnect s')) = DISCONNECTED).
Proof.
  intros b. split; [repeat split; [discriminate|reflexivity..]|].
  apply disconnect_stops_loop_only_when_connected; [discriminate|reflexivity..].
Defined.

(** The session after a successful [connect()]. *)
Lemma connect_success_result (b : Broker) (s : Session) :
  state s <> CONNECTED -> attempt_fails b = false ->
  connect b s = (Ok true, spawn_processor (set_running true
     (set_event true (set_state CONNECTED (set_net_loop true (set_state CONNECTING s)))))).
Proof.
  unfold attempt_fails. intros Hs Hok.
  unfold connect, bind, get, modify, ret, on_connect_success.
  rewrite (TransportFacts.state_eqb_connected _ Hs).
  destruct (tcp_connect_ok b), (handshake_ok b); try discriminate. reflexivity.
Qed.

(** X7: a successful [connect()] from any state other than [CONNECTED]
    sets [CONNECTED] and [_running], and creates exactly one dispatch task;
    any later [connect()] call, whatever the broker does, returns [True] at
    once and changes nothing, so no second dispatch task is created. *)
Theorem connect_once (b b' : Broker) (s : Session)
  (Hs : state s <> CONNECTED) (Hok : attempt_fails b = false) :
  let s1 := snd (connect b s) in
  fst (connect b s) = Ok true /\ state s1 = CONNECTED /\ running s1 = true /\
  processor_tasks s1 = S (processor_tasks s) /\
  connect b' s1 = (Ok true, s1).
Proof.
  cbv zeta. rewrite (connect_success_result _ _ Hs Hok).
  refine (conj _ (conj _ (conj _ (conj _ _)))); reflexivity.
Qed.

Lemma connect_once_witness :
  let b := {| tcp_connect_ok := true; handshake_ok := true;
              wait_for_publish_ok := true; subscribe_rc := 0 |} in
  let b' := {| tcp_connect_ok := false; handshake_ok := false;
               wait_for_publish_ok := false; subscribe_rc := 1 |} in
  (state init_session <> CONNECTED /\ attempt_fails b = false) /\
  let s1 := snd (connect b init_session) in
  fst (connect b init_session) = Ok true /\ state s1 = CONNECTED /\ running s1 = true /\
  processor_tasks s1 = S (processor_tasks init_session) /\
  connect b' s1 = (Ok true, s1).
Proof.
  intros b b'. split; [split; [discriminate|reflexivity]|].
  apply connect_once; [discriminate|reflexivity].
Defined.

End TransportExtras.

(** ** Further facts about the client core and the two roles *)
Module ClientExtras.
Import PyStr Topics Transport Client Roles.
Local Open Scope nat_scope.

(** [_publish_message] (without a target) on a connected client whose
    session is connected, once validation has passed. *)
Lemma publish_message_connected (b : Broker) (valid : string -> string -> bool)
  (c : VClient) (mt payload topic : string) :
  connected c = true -> state (mqtt c) = CONNECTED ->
  validate_messages c && negb (valid mt payload) = false ->
  get_publish_topic (topic_manager c) mt = Ok topic ->
  publish_message b valid mt payload c =
    if paho_publish_invalid topic payload 1 then (Raise VDA5050Error, c)
    else (if wait_for_publish_ok b then Ok true else Raise VDA5050Error,
          set_mqtt (record_publish (topic, payload, 1) (mqtt c)) c).
Proof.
  intros Hc Hs Hv Ht.
  unfold publish_message, try_except, cbind, cget, craise, cret, lift, on_mqtt.
  rewrite Hc, Hv, Ht. simpl negb. cbv iota beta.
  unfold publish, Transport.bind, get, modify, ret, raise. cbn -[paho_publish_invalid].
  rewrite Hs. cbn -[paho_publish_invalid].
  destruct (paho_publish_invalid topic payload 1); [destruct c; reflexivity|].
  destruct (wait_for_publish_ok b); reflexivity.
Qed.

(** X10: once a client is connected, [_publish_message] sends nothing
    when the validator rejects the payload and raises [VDA5050Error].
    Otherwise, on the client's own topic for the message type: when paho's
    [client.publish] refuses the topic or payload (a '+' or '#' in the
    topic, for instance) it raises [ValueError] outside the transport's
    [try], nothing is sent and [_publish_message] raises [VDA5050Error];
    else the payload is queued exactly once, at QoS 1, and the call returns
    [True] unless [wait_for_publish] raised, in which case it raises
    [VDA5050Error] (the message has still been queued). *)
Theorem publish_message_outcomes (b : Broker) (valid : string -> string -> bool)
  (c : VClient) (mt payload : string)
  (Hc : connected c = true) (Hs : state (mqtt c) = CONNECTED)
  (Hmt : is_message_type mt = true) :
  (validate_messages c = true -> valid mt payload = false ->
     publish_message b valid mt payload c = (Raise VDA5050Error, c)) /\
  (validate_messages c = false \/ valid mt payload = true ->
     exists topic, get_publish_topic (topic_manager c) mt = Ok topic /\
       publish_message b valid mt payload c =
         if paho_publish_invalid topic payload 1 then (Raise VDA5050Error, c)
         else (if wait_for_publish_ok b then Ok true else Raise VDA5050Error,
               set_mqtt (record_publish (topic, payload, 1) (mqtt c)) c)).
Proof.
  split.
  - intros Hvm Hv.
    unfold publish_message, try_except, cbind, cget, craise, cret.
    rewrite Hc, Hvm, Hv. reflexivity.
  - intros Hv. eexists; split.
    + unfold get_publish_topic. rewrite Hmt. reflexivity.
    + apply publish_message_connected; [exact Hc|exact Hs| |].
      * destruct Hv as [Hv|Hv]; rewrite Hv; [reflexivity|apply andb_false_r].
      * unfold get_publish_topic. rewrite Hmt. reflexivity.
Qed.

Lemma publish_message_outcomes_witness :
  let b := {| tcp_connect_ok := true; handshake_ok := true;
              wait_for_publish_ok := false; subscribe_rc := 0 |} in
  let valid := fun (_ payload : string) => String.eqb payload "{}" in
  let s := snd (Transport.connect b init_session) in
  let c := set_connected true (set_mqtt s (new_agv_client "localhost" "RobotCo" "A1")) in
  let c' := set_connected true (set_mqtt s (new_agv_client "localhost" "+" "A1")) in
  (connected c = true /\ state (mqtt c) = CONNECTED /\ is_message_type "state" = true) /\
  publish_message b valid "state" "[]" c = (Raise VDA5050Error, c) /\
  publish_message b valid "state" "{}" c =
    (Raise VDA5050Error,
     set_mqtt (record_publish ("uagv/v2/localhost/RobotCo/state", "{}", 1) s) c) /\
  publish_message b valid "state" "{}" c' = (Raise VDA5050Error, c').
Proof.
  intros b valid s c c'. split; [repeat split; reflexivity|split; [|split]].
  - apply (publish_message_outcomes b valid c "state" "[]"); reflexivity.
  - destruct (proj2 (publish_message_outcomes b valid c "state" "{}" eq_refl eq_refl eq_refl)
                (or_intror eq_refl)) as [topic [Et E]].
    rewrite E. injection Et as <-. reflexivity.
  - destruct (proj2 (publish_message_outcomes b valid c' "state" "{}" eq_refl eq_refl eq_refl)
                (or_intror eq_refl)) as [topic [Et E]].
    rewrite E. injection Et as <-. reflexivity.
Defined.

(** [_publish_message] returns [True] or raises [VDA5050Error], and
    leaves the stored factsheet alone. *)
Lemma publish_message_result (b : Broker) (valid : string -> string -> bool)
  (mt payload : string) (c : VClient) :
  (fst (publish_message b valid mt payload c) = Ok true \/
   fst (publish_message b valid mt payload c) = Raise VDA5050Error) /\
  factsheet (snd (publish_message b valid mt payload c)) = factsheet c.
Proof.
  unfold publish_message, try_except, cbind, cget, craise, cret, lift, on_mqtt.
  destruct (connected c); cbn -[publish]; [|split; [now right|reflexivity]].
  destruct (validate_messages c && negb (valid mt payload)); cbn -[publish];
    [split; [now right|reflexivity]|].
  destruct (get_publish_topic (topic_manager c) mt) as [t|e0]; cbn -[publish];
    [|split; [now right|reflexivity]].
  destruct (publish b t payload 1 (mqtt c)) as [[x|e0] s']; cbn;
    [destruct x; cbn|]; split; try (now left); try (now right); reflexivity.
Qed.

(** X11: [send_factsheet] stores the factsheet on the client whatever
    happens and never raises: it returns [True] when [_publish_message]
    does, and [False] when [_publish_message] raises, as it does for a
    client not connected, a payload the validator rejects, a topic paho
    refuses or a [wait_for_publish] that raised. *)
Theorem send_factsheet_stores_and_returns (b : Broker) (valid : string -> string -> bool)
  (fs : string) (c : VClient) :
  let r := publish_message b valid "factsheet" fs (set_factsheet fs c) in
  (fst r = Ok true \/ fst r = Raise VDA5050Error) /\
  send_factsheet b valid fs c =
    (match fst r with Ok _ => Ok true | Raise _ => Ok false end, snd r) /\
  factsheet (snd r) = Some fs /\
  (connected c = false -> send_factsheet b valid fs c = (Ok false, set_factsheet fs c)).
Proof.
  cbv zeta.
  destruct (publish_message_result b valid "factsheet" fs (set_factsheet fs c)) as [Hr Hf].
  assert (E : send_factsheet b valid fs c =
    (match fst (publish_message b valid "factsheet" fs (set_factsheet fs c)) with
     | Ok _ => Ok true | Raise _ => Ok false end,
     snd (publish_message b valid "factsheet" fs (set_factsheet fs c)))).
  { unfold send_factsheet, cbind, cmodify, try_except. cbn [fst snd].
    destruct (publish_message b valid "factsheet" fs (set_factsheet fs c)) as [[x|e] c'];
      cbn in *; destruct Hr as [Hr|Hr]; inversion Hr; subst; reflexivity. }
  split; [exact Hr|split; [exact E|split; [exact Hf|]]].
  intros Hc. rewrite E.
  unfold publish_message, cbind, cget, craise. cbn. rewrite Hc. reflexivity.
Qed.

(** X8: after the broker drops the connection ([_on_disconnect], which
    schedules [_reconnect] exactly when the return code is not 0), the
    client still reports itself connected, and [send_state] returns [False]
    without publishing or changing anything. *)
Theorem send_state_after_drop (b : Broker) (valid : string -> string -> bool)
  (c : VClient) (rc : nat) (st : string) (Hc : connected c = true) :
  let c1 := set_mqtt (snd (on_disconnect rc (mqtt c))) c in
  fst (on_disconnect rc (mqtt c)) = Ok (negb (Nat.eqb rc 0)) /\
  connected c1 = true /\
  send_state b valid st c1 = (Ok false, c1).
Proof.
  cbv zeta. refine (conj eq_refl (conj Hc _)).
  unfold send_state, publish_message, try_except, cbind, cget, craise, cret, lift, on_mqtt.
  cbn -[publish]. rewrite Hc. cbn -[publish].
  destruct (validate_messages c && negb (valid "state" st)); reflexivity.
Qed.

Lemma send_state_after_drop_witness :
  let b := {| tcp_connect_ok := true; handshake_ok := true;
              wait_for_publish_ok := true; subscribe_rc := 0 |} in
  let c := set_connected true
             (set_mqtt (snd (Transport.connect b init_session))
                (new_agv_client "localhost" "RobotCo" "A1")) in
  connected c = true /\
  let c1 := set_mqtt (snd (on_disconnect 7 (mqtt c))) c in
  fst (on_disconnect 7 (mqtt c)) = Ok (negb (Nat.eqb 7 0)) /\
  connected c1 = true /\
  send_state b (fun _ _ => true) "{}" c1 = (Ok false, c1).
Proof.
  intros b c. split; [reflexivity|].
  apply send_state_after_drop. reflexivity.
Defined.

(** X12: [AGVClient(broker_url, manufacturer, serial_number)] publishes its
    state on [uagv/v2/<broker_url>/<manufacturer>/state]: the constructor's
    positional call shifts the identity by one place, and the serial number
    never appears in the topic. Once connected, [send_state] with a valid
    state payload returns [False] and sends nothing when paho refuses that
    topic or payload (as it does for a manufacturer holding '+' or '#');
    otherwise it queues the payload at QoS 1 on that topic and returns
    [True] unless [wait_for_publish] raised. *)
Theorem agv_state_topic_shifted (b : Broker) (valid : string -> string -> bool)
  (url man serial : string) (s : Session) (st : string)
  (Hs : state s = CONNECTED) (Hv : valid "state" st = true) :
  let c := set_connected true (set_mqtt s (new_agv_client url man serial)) in
  let topic := "uagv/v2/" ++ url ++ "/" ++ man ++ "/state" in
  send_state b valid st c =
    if paho_publish_invalid topic st 1 then (Ok false, c)
    else (Ok (wait_for_publish_ok b), set_mqtt (record_publish (topic, st, 1) s) c).
Proof.
  cbv zeta. unfold send_state, try_except.
  rewrite (publish_message_connected b valid _ "state" st
             ("uagv/v2/" ++ url ++ "/" ++ man ++ "/state")); [| reflexivity | exact Hs | |].
  - destruct (paho_publish_invalid _ st 1); [reflexivity|].
    destruct (wait_for_publish_ok b); reflexivity.
  - simpl. now rewrite Hv.
  - unfold get_publish_topic, base_topic. simpl.
    repeat rewrite TopicFacts.string_app_assoc. reflexivity.
Qed.

Lemma agv_state_topic_shifted_witness :
  let b := {| tcp_connect_ok := true; handshake_ok := true;
              wait_for_publish_ok := true; subscribe_rc := 0 |} in
  let s := snd (Transport.connect b init_session) in
  let c := set_connected true (set_mqtt s (new_agv_client "localhost" "RobotCo" "A1")) in
  let c' := set_connected true (set_mqtt s (new_agv_client "localhost" "+" "A1")) in
  (state s = CONNECTED /\ (fun _ _ => true) "state" "{}" = true) /\
  send_state b (fun _ _ => true) "{}" c =
    (Ok true, set_mqtt (record_publish ("uagv/v2/localhost/RobotCo/state", "{}", 1) s) c) /\
  send_state b (fun _ _ => true) "{}" c' = (Ok false, c').
Proof.
  intros b s c c'. subst c c'. split; [split; reflexivity|split].
  - rewrite (agv_state_topic_shifted b (fun _ _ => true) "localhost" "RobotCo" "A1" s "{}"
               eq_refl eq_refl). reflexivity.
  - rewrite (agv_state_topic_shifted b (fun _ _ => true) "localhost" "+" "A1" s "{}"
               eq_refl eq_refl). reflexivity.
Defined.

(** X13: [update_connection] raises [VDA5050Error] on a client not
    connected (where [send_state] returns [False]). On a connected one it
    takes the given string as the payload as it is, without validation, on
    the client's connection topic: it returns [False] and sends nothing
    when paho refuses the topic or payload, and otherwise queues it at
    QoS 1 and returns [True] unless [wait_for_publish] raised. *)
Theorem update_connection_outcomes (b : Broker) (valid : string -> string -> bool)
  (c : VClient) (connection_state st : string) :
  (connected c = false ->
     update_connection b connection_state c = (Raise VDA5050Error, c) /\
     send_state b valid st c = (Ok false, c)) /\
  (connected c = true -> state (mqtt c) = CONNECTED ->
     exists topic, get_publish_topic (topic_manager c) "connection" = Ok topic /\
       update_connection b connection_state c =
         if paho_publish_invalid topic connection_state 1 then (Ok false, c)
         else (Ok (wait_for_publish_ok b),
               set_mqtt (record_publish (topic, connection_state, 1) (mqtt c)) c)).
Proof.
  split.
  - intros Hc. unfold update_connection, send_state, publish_message, try_except, cbind,
      cget, craise, cret. rewrite Hc. split; reflexivity.
  - intros Hc Hs. eexists; split; [reflexivity|].
    unfold update_connection, try_except, cbind, cget, craise, cret, lift, on_mqtt.
    rewrite Hc. cbn -[publish].
    unfold publish, Transport.bind, get, modify, ret, raise. cbn -[paho_publish_invalid].
    rewrite Hs. cbn -[paho_publish_invalid].
    destruct (paho_publish_invalid _ connection_state 1); [destruct c; reflexivity|].
    destruct (wait_for_publish_ok b); reflexivity.
Qed.

Lemma update_connection_outcomes_witness :
  let b := {| tcp_connect_ok := true; handshake_ok := true;
              wait_for_publish_ok := false; subscribe_rc := 0 |} in
  let c0 := new_agv_client "localhost" "RobotCo" "A1" in
  let c := set_connected true (set_mqtt (snd (Transport.connect b init_session)) c0) in
  (update_connection b "ONLINE" c0 = (Raise VDA5050Error, c0) /\
   send_state b (fun _ _ => true) "{}" c0 = (Ok false, c0)) /\
  update_connection b "ONLINE" c =
    (Ok false,
     set_mqtt (record_publish ("uagv/v2/localhost/RobotCo/connection", "ONLINE", 1) (mqtt c)) c).
Proof.
  intros b c0 c. split.
  - apply (update_connection_outcomes b (fun _ _ => true) c0 "ONLINE" "{}"). reflexivity.
  - destruct (proj2 (update_connection_outcomes b (fun _ _ => true) c "ONLINE" "{}")
                eq_refl eq_refl) as [topic [Et E]].
    rewrite E. injection Et as <-. reflexivity.
Defined.

(** [_publish_message] with targets, on a connected client whose session is
    connected, once validation has passed. *)
Lemma publish_message_to_connected (b : Broker) (valid : string -> string -> bool)
  (c : VClient) (mt payload : string) (tm ts : option string) (topic : string) :
  connected c = true -> state (mqtt c) = CONNECTED ->
  validate_messages c && negb (valid mt payload) = false ->
  match tm, ts with
  | Some m, Some s =>
      if truthy m && truthy s then get_target_topic (topic_manager c) mt m s
      else get_publish_topic (topic_manager c) mt
  | _, _ => get_publish_topic (topic_manager c) mt
  end = Ok topic ->
  publish_message_to b valid mt payload tm ts c =
    if paho_publish_invalid topic payload 1 then (Raise VDA5050Error, c)
    else (if wait_for_publish_ok b then Ok true else Raise VDA5050Error,
          set_mqtt (record_publish (topic, payload, 1) (mqtt c)) c).
Proof.
  intros Hc Hs Hv Ht.
  unfold publish_message_to, try_except, cbind, cget, craise, cret, lift, on_mqtt.
  rewrite Hc, Hv, Ht.
  unfold publish, Transport.bind, get, modify, ret, raise. cbn -[paho_publish_invalid].
  rewrite Hs. cbn -[paho_publish_invalid].
  destruct (paho_publish_invalid topic payload 1); [destruct c; reflexivity|].
  destruct (wait_for_publish_ok b); reflexivity.
Qed.

(** X14: the master's [send_order] publishes on the target AGV's order
    topic only when both target strings are non-empty; if either is empty
    the order goes to the master's own order topic (itself built from the
    shifted identity [uagv/v2/<broker_url>/<manufacturer>]). It never
    raises: it returns [False] and sends nothing when paho refuses the
    chosen topic or the payload (a target holding '+' or '#', for
    instance), and otherwise queues the order at QoS 1 and returns [True]
    unless [wait_for_publish] raised. [send_instant_action] does the same
    on the [instantActions] topics. *)
Theorem master_send_order_topic (b : Broker) (valid : string -> string -> bool)
  (url man serial : string) (s : Session) (tman tser order : string)
  (Hs : state s = CONNECTED) (Hv : valid "order" order = true)
  (Hv' : valid "instantActions" order = true) :
  let c := set_connected true (set_mqtt s (new_master_client url man serial)) in
  let topic_o := if truthy tman && truthy tser
                 then "uagv/v2/" ++ tman ++ "/" ++ tser ++ "/order"
                 else "uagv/v2/" ++ url ++ "/" ++ man ++ "/order" in
  let topic_i := if truthy tman && truthy tser
                 then "uagv/v2/" ++ tman ++ "/" ++ tser ++ "/instantActions"
                 else "uagv/v2/" ++ url ++ "/" ++ man ++ "/instantActions" in
  send_order b valid tman tser order c =
    (if paho_publish_invalid topic_o order 1 then (Ok false, c)
     else (Ok (wait_for_publish_ok b), set_mqtt (record_publish (topic_o, order, 1) s) c)) /\
  send_instant_action b valid tman tser order c =
    (if paho_publish_invalid topic_i order 1 then (Ok false, c)
     else (Ok (wait_for_publish_ok b), set_mqtt (record_publish (topic_i, order, 1) s) c)).
Proof.
  cbv zeta. split.
  - unfold send_order, try_except.
    rewrite (publish_message_to_connected b valid _ "order" order (Some tman) (Some tser)
               (if truthy tman && truthy tser
                then "uagv/v2/" ++ tman ++ "/" ++ tser ++ "/order"
                else "uagv/v2/" ++ url ++ "/" ++ man ++ "/order"));
      [| reflexivity | exact Hs | |].
    + destruct (paho_publish_invalid _ order 1); [reflexivity|].
      destruct (wait_for_publish_ok b); reflexivity.
    + simpl. now rewrite Hv.
    + destruct (truthy tman && truthy tser); [reflexivity|].
      unfold get_publish_topic, base_topic. simpl.
      repeat rewrite TopicFacts.string_app_assoc. reflexivity.
  - unfold send_instant_action, try_except.
    rewrite (publish_message_to_connected b valid _ "instantActions" order (Some tman)
               (Some tser)
               (if truthy tman && truthy tser
                then "uagv/v2/" ++ tman ++ "/" ++ tser ++ "/instantActions"
                else "uagv/v2/" ++ url ++ "/" ++ man ++ "/instantActions"));
      [| reflexivity | exact Hs | |].
    + destruct (paho_publish_invalid _ order 1); [reflexivity|].
      destruct (wait_for_publish_ok b); reflexivity.
    + simpl. now rewrite Hv'.
    + destruct (truthy tman && truthy tser); [reflexivity|].
      unfold get_publish_topic, base_topic. simpl.
      repeat rewrite TopicFacts.string_app_assoc. reflexivity.
Qed.

Lemma master_send_order_topic_witness :
  let b := {| tcp_connect_ok := true; handshake_ok := true;
              wait_for_publish_ok := true; subscribe_rc := 0 |} in
  let s := snd (Transport.connect b init_session) in
  (state s = CONNECTED /\ (fun _ _ => true) "order" "{}" = true /\
   (fun _ _ => true) "instantActions" "{}" = true) /\
  let c := set_connected true (set_mqtt s (new_master_client "localhost" "Fleet" "MC1")) in
  send_order b (fun _ _ => true) "RobotCo" "" "{}" c =
    (Ok true, set_mqtt (record_publish ("uagv/v2/localhost/Fleet/order", "{}", 1) s) c) /\
  send_instant_action b (fun _ _ => true) "RobotCo" "A1" "{}" c =
    (Ok true, set_mqtt (record_publish ("uagv/v2/RobotCo/A1/instantActions", "{}", 1) s) c) /\
  send_order b (fun _ _ => true) "+" "A1" "{}" c = (Ok false, c).
Proof.
  intros b s. split; [repeat split; reflexivity|]. intros c. subst c. split; [|split].
  - rewrite (proj1 (master_send_order_topic b (fun _ _ => true) "localhost" "Fleet" "MC1" s
             "RobotCo" "" "{}" eq_refl eq_refl eq_refl)). reflexivity.
  - rewrite (proj2 (master_send_order_topic b (fun _ _ => true) "localhost" "Fleet" "MC1" s
             "RobotCo" "A1" "{}" eq_refl eq_refl eq_refl)). reflexivity.
  - rewrite (proj1 (master_send_order_topic b (fun _ _ => true) "localhost" "Fleet" "MC1" s
             "+" "A1" "{}" eq_refl eq_refl eq_refl)). reflexivity.
Defined.

(** The master's subscriptions after a successful [connect()]. *)
Lemma master_connect_result (b : Broker) (url man serial : string) :
  attempt_fails b = false -> subscribe_rc b = 0 ->
  let c1 := snd (Client.connect b master_role (new_master_client url man serial)) in
  fst (Client.connect b master_role (new_master_client url man serial)) = Ok true /\
  connected c1 = true /\ handlers (mqtt c1) = [] /\
  wildcard_handlers (mqtt c1) =
    [("uagv/v2/+/+/" ++ "state", handle_state);
     ("uagv/v2/+/+/" ++ "connection", handle_connection);
     ("uagv/v2/+/+/" ++ "factsheet", handle_factsheet)] /\
  sent_of c1 = [].
Proof.
  destruct b as [tcp hs ack rc]. unfold attempt_fails. simpl.
  intros Hok Hrc. subst rc. destruct tcp, hs; try discriminate.
  cbv zeta. repeat split.
Qed.

(** X15: a master-control client that connects successfully holds
    exactly three subscriptions, all in the wildcard map and in this order:
    [uagv/v2/+/+/state], [uagv/v2/+/+/connection] and
    [uagv/v2/+/+/factsheet], whatever identity it was built with; it has
    no exact subscription and publishes nothing while connecting. *)
Theorem master_connect_subscriptions (b : Broker) (url man serial : string)
  (Hok : attempt_fails b = false) (Hrc : subscribe_rc b = 0) :
  let c1 := snd (Client.connect b master_role (new_master_client url man serial)) in
  fst (Client.connect b master_role (new_master_client url man serial)) = Ok true /\
  connected c1 = true /\ handlers (mqtt c1) = [] /\
  map fst (wildcard_handlers (mqtt c1)) =
    ["uagv/v2/+/+/state"; "uagv/v2/+/+/connection"; "uagv/v2/+/+/factsheet"] /\
  sent_of c1 = [].
Proof.
  destruct (master_connect_result b url man serial Hok Hrc) as (H1 & H2 & H3 & H4 & H5).
  cbv zeta. rewrite H4. repeat split; assumption.
Qed.

Lemma master_connect_subscriptions_witness :
  let b := {| tcp_connect_ok := true; handshake_ok := true;
              wait_for_publish_ok := true; subscribe_rc := 0 |} in
  (attempt_fails b = false /\ subscribe_rc b = 0) /\
  let c1 := snd (Client.connect b master_role (new_master_client "localhost" "Fleet" "MC1")) in
  fst (Client.connect b master_role (new_master_client "localhost" "Fleet" "MC1")) = Ok true /\
  connected c1 = true /\ handlers (mqtt c1) = [] /\
  map fst (wildcard_handlers (mqtt c1)) =
    ["uagv/v2/+/+/state"; "uagv/v2/+/+/connection"; "uagv/v2/+/+/factsheet"] /\
  sent_of c1 = [].
Proof.
  intros b. split; [split; reflexivity|].
  apply master_connect_subscriptions; reflexivity.
Defined.

(** A pattern of the master against a topic of the same layout. *)
Lemma master_pattern_match (x m s mt : string) :
  m <> "" -> has_char slash m = false -> s <> "" -> has_char slash s = false ->
  Wildcard.route_match ("uagv/v2/+/+/" ++ x) ("uagv/v2/" ++ m ++ "/" ++ s ++ "/" ++ mt) =
  Wildcard.route_match x mt.
Proof.
  intros Hm Hm' Hs Hs'.
  change ("uagv/v2/+/+/" ++ x) with ("uagv/v2/" ++ ("+/" ++ ("+/" ++ x))).
  rewrite (TopicExtras.route_match_literal_prefix "uagv/v2/"); [|reflexivity].
  change ("/" ++ s ++ "/" ++ mt) with (String slash (s ++ String slash mt)).
  rewrite TopicExtras.route_match_segment; [|exact Hm|exact Hm'].
  rewrite TopicExtras.route_match_segment; [reflexivity|exact Hs|exact Hs'].
Qed.

(** X16: once connected, the master routes a message on the topic
    [uagv/v2/<m>/<s>/<type>] of any AGV whose manufacturer and serial number
    are non-empty and free of '/' to its state, connection or factsheet
    handler according to the type, and drops messages of the three other
    types; [_route]'s [re.match] is taken as Python's wherever the regex
    model defines it. *)
Theorem master_routes_agv_messages (b : Broker) (url man serial : string)
  (matches : string -> string -> result bool) (Hre : Wildcard.re_faithful matches)
  (run_handler : handler -> string -> string -> result unit)
  (m s mt payload : string)
  (Hok : attempt_fails b = false) (Hrc : subscribe_rc b = 0)
  (Hm : m <> "") (Hm' : has_char slash m = false)
  (Hs : s <> "") (Hs' : has_char slash s = false)
  (Hmt : is_message_type mt = true) :
  let c1 := snd (Client.connect b master_role (new_master_client url man serial)) in
  let topic := "uagv/v2/" ++ m ++ "/" ++ s ++ "/" ++ mt in
  route matches run_handler (mqtt c1) topic payload =
    if String.eqb mt "state" then ([handle_state], run_handler handle_state topic payload)
    else if String.eqb mt "connection"
    then ([handle_connection], run_handler handle_connection topic payload)
    else if String.eqb mt "factsheet"
    then ([handle_factsheet], run_handler handle_factsheet topic payload)
    else ([], Ok tt).
Proof.
  destruct (master_connect_result b url man serial Hok Hrc) as (_ & _ & H3 & H4 & _).
  assert (Hx : forall x, x = "state" \/ x = "connection" \/ x = "factsheet" ->
            matches ("uagv/v2/+/+/" ++ x) ("uagv/v2/" ++ m ++ "/" ++ s ++ "/" ++ mt) =
            Ok (String.eqb x mt)).
  { intros x Hxs. apply Hre. rewrite (master_pattern_match x m s mt Hm Hm' Hs Hs').
    destruct Hxs as [->|[->| ->]];
      destruct (TopicFacts.message_type_cases mt Hmt) as [->|[->|[->|[->|[->| ->]]]]];
      vm_compute; reflexivity. }
  cbv zeta. unfold route. rewrite H3, H4. cbn [dict_get route_wildcards].
  rewrite (Hx "state" (or_introl eq_refl)).
  rewrite (Hx "connection" (or_intror (or_introl eq_refl))).
  rewrite (Hx "factsheet" (or_intror (or_intror eq_refl))).
  destruct (TopicFacts.message_type_cases mt Hmt) as [->|[->|[->|[->|[->| ->]]]]];
    reflexivity.
Qed.

Lemma master_routes_agv_messages_witness :
  let b := {| tcp_connect_ok := true; handshake_ok := true;
              wait_for_publish_ok := true; subscribe_rc := 0 |} in
  let m := fun p t => match Wildcard.route_match p t with Some r => r | None => Ok false end in
  (Wildcard.re_faithful m /\ attempt_fails b = false /\ subscribe_rc b = 0 /\
   "RobotCo" <> "" /\ has_char slash "RobotCo" = false /\
   "A1" <> "" /\ has_char slash "A1" = false /\ is_message_type "connection" = true) /\
  let c1 := snd (Client.connect b master_role (new_master_client "localhost" "Fleet" "MC1")) in
  route m (fun _ _ _ => Ok tt) (mqtt c1)
    "uagv/v2/RobotCo/A1/connection" "{}" = ([handle_connection], Ok tt).
Proof.
  intros b m.
  assert (Hre : Wildcard.re_faithful m).
  { intros p t r E. unfold m. now rewrite E. }
  split; [repeat split; [exact Hre|discriminate|discriminate|reflexivity..]|].
  exact (master_routes_agv_messages b "localhost" "Fleet" "MC1" m Hre (fun _ _ _ => Ok tt)
           "RobotCo" "A1" "connection" "{}" eq_refl eq_refl
           ltac:(discriminate) eq_refl ltac:(discriminate) eq_refl eq_refl).
Defined.

(** X17: the master's [_handle_state] (and its connection and factsheet
    twins) hands every registered callback, in registration order, the
    serial number segment of the topic: for the publish topic of any AGV
    whose interface name matches the master's, whose identity segments
    contain no '/' and whose major version is a [str.isdigit] string (not
    necessarily the master's own), each callback gets the AGV's serial
    number. A topic that does not split into five segments makes
    [parse_topic] raise [ValueError] out of the handler before the payload
    is decoded or any callback runs: the [if not info] branch is never
    taken. *)
Theorem master_handle_serial {Msg : Type} (decode : string -> result Msg)
  (cbs : list callback) (master agv : TopicManager) (mt payload : string) (msg : Msg)
  (Hi : interface master = interface agv)
  (Hiface : has_char slash (interface agv) = false)
  (Hm : has_char slash (Topics.manufacturer agv) = false)
  (Hs : has_char slash (Topics.serial_number agv) = false)
  (Hmajor : isdigit (major_version agv) = true) (Hmt : is_message_type mt = true)
  (Hd : decode payload = Ok msg) :
  (exists topic, get_publish_topic agv mt = Ok topic /\
     master_handle decode cbs master topic payload =
       Ok (map (fun cb => (cb, Topics.serial_number agv, msg)) cbs)) /\
  (forall topic, length (split slash topic) <> 5 ->
     master_handle decode cbs master topic payload = Raise ValueError).
Proof.
  split.
  - unfold get_publish_topic. rewrite Hmt. eexists; split; [reflexivity|].
    unfold master_handle.
    assert (E : base_topic agv ++ "/" ++ mt =
      interface agv ++ "/v" ++ major_version agv ++ "/" ++ Topics.manufacturer agv ++ "/"
        ++ Topics.serial_number agv ++ "/" ++ mt)
      by (unfold base_topic; repeat rewrite TopicFacts.string_app_assoc; reflexivity).
    rewrite E, (TopicExtras.parse_topic_shape agv master); try assumption.
    now rewrite Hd.
  - intros topic Hl. unfold master_handle, parse_topic.
    destruct (split slash topic) as [|a [|b' [|c [|d [|e [|f l]]]]]];
      try reflexivity. now elim Hl.
Qed.

Lemma master_handle_serial_witness :
  let master := new_topic_manager "uagv" "2.1.0" "localhost" "Fleet" in
  let agv := new_topic_manager "uagv" "3.0.0" "RobotCo" "A1" in
  (interface master = interface agv /\ has_char slash (interface agv) = false /\
   has_char slash (Topics.manufacturer agv) = false /\
   has_char slash (Topics.serial_number agv) = false /\
   isdigit (major_version agv) = true /\ is_message_type "state" = true /\
   (fun p : string => Ok p) "{}" = Ok "{}") /\
  (exists topic, get_publish_topic agv "state" = Ok topic /\
     master_handle (fun p : string => Ok p) [1; 2] master topic "{}" =
       Ok (map (fun cb => (cb, Topics.serial_number agv, "{}")) [1; 2])) /\
  (forall topic, length (split slash topic) <> 5 ->
     master_handle (fun p : string => Ok p) [1; 2] master topic "{}" = Raise ValueError).
Proof.
  intros master agv. split; [repeat split; reflexivity|].
  apply (master_handle_serial (fun p : string => Ok p) [1; 2] master agv "state" "{}" "{}");
    reflexivity.
Defined.

End ClientExtras.
